(** * epub_from_html_code: chapter splitting, validation and packaging

    A shallow embedding of [main.py]: the script that turns one HTML
    file into an EPUB book, starting a new chapter at every top-level
    [h1]/[h2] heading.

    Layout: the Python values the script manipulates ([Py]), the parse
    tree it walks ([Bs4]), paths ([Pathlib]), the book it fills
    ([Epub]), then the functions of [main.py] under their own names
    ([Main]), and finally the properties. *)

From Stdlib Require Import ZArith Ascii String DecimalString DecimalPos DecimalZ.
From stdpp Require Import base option list strings gmap.

(** ** Python values *)

Module Py.

(** A Python [str] is a sequence of code points.  The embedding keeps
    the code points below 256 (one [ascii] each); every operation
    below agrees with CPython on that range. *)
Definition str := string.

Definition ord (c : ascii) : N := N_of_ascii c.
Definition chr (n : N) : ascii := ascii_of_N n.

(** [str.lower()]: A-Z and the Latin-1 capitals (all of 0xC0-0xDE but
    the multiplication sign 0xD7) move up by 32. *)
Definition lower_char (c : ascii) : ascii :=
  let n := ord c in
  if ((65 <=? n) && (n <=? 90) ||
      (192 <=? n) && (n <=? 222) && negb (n =? 215))%N
  then chr (n + 32) else c.

Fixpoint lower (s : str) : str :=
  match s with
  | EmptyString => EmptyString
  | String c r => String (lower_char c) (lower r)
  end.

(** [c in s] for a one-character needle. *)
Fixpoint contains (c : ascii) (s : str) : bool :=
  match s with
  | EmptyString => false
  | String d r => Ascii.eqb c d || contains c r
  end.

(** ["".join(l)] and [sep.join(l)]. *)
Fixpoint concat (l : list str) : str :=
  match l with
  | [] => EmptyString
  | s :: r => s +:+ concat r
  end.

Fixpoint join (sep : str) (l : list str) : str :=
  match l with
  | [] => EmptyString
  | [s] => s
  | s :: r => s +:+ sep +:+ join sep r
  end.

(** *** [repr] of a [str] *)

Definition hex_digit (n : N) : ascii :=
  match String.get (N.to_nat n) "0123456789abcdef" with
  | Some c => c
  | None => "0"%char
  end.

Definition hex_escape (n : N) : str :=
  String "\" (String "x" (String (hex_digit (n / 16)) (String (hex_digit (n mod 16)) EmptyString))).

(** [str.isprintable] on one code point below 256: the C0 and C1
    controls, DEL, the no-break space and the soft hyphen are not. *)
Definition isprintable (n : N) : bool :=
  ((32 <=? n) && (n <? 127) || (161 <=? n) && negb (n =? 173))%N.

Definition single_quote : ascii := "'"%char.
Definition double_quote : ascii := chr 34.
Definition backslash : ascii := "\"%char.

(** The quote [repr] wraps the string in: double quotes only when the
    string has a single quote and no double quote. *)
Definition repr_quote (s : str) : ascii :=
  if contains single_quote s && negb (contains double_quote s)
  then double_quote else single_quote.

Definition repr_char (q c : ascii) : str :=
  let n := ord c in
  if Ascii.eqb c q || Ascii.eqb c backslash then String backslash (String c EmptyString)
  else if (n =? 9)%N then String backslash "t"
  else if (n =? 10)%N then String backslash "n"
  else if (n =? 13)%N then String backslash "r"
  else if isprintable n then String c EmptyString
  else hex_escape n.

Fixpoint repr_body (q : ascii) (s : str) : str :=
  match s with
  | EmptyString => EmptyString
  | String c r => repr_char q c +:+ repr_body q r
  end.

Definition repr (s : str) : str :=
  let q := repr_quote s in
  String q (repr_body q s +:+ String q EmptyString).

(** [str(l)] for a list of strings: the [repr] of every element,
    separated by a comma and a space, between square brackets. *)
Definition str_of_list (l : list str) : str :=
  "[" +:+ join ", " (map repr l) +:+ "]".

(** [str(n)], also what an f-string substitutes for [{n}]. *)
Definition str_of_int (n : Z) : str :=
  NilZero.string_of_int (Z.to_int n).

(** Truthiness of a string and of a list: non-empty. *)
Definition truthy_str (s : str) : bool := negb (String.eqb s "").


Definition truthy_list {A} (l : list A) : bool :=
  match l with [] => false | _ => true end.

(** Exceptions the script can end with. *)
Inductive exn : Type :=
| FileNotFoundError (msg : str)
| ValueError (msg : str)
| KeyError (key : str)
| AttributeError (msg : str)
| IsADirectoryError (msg : str)
| SystemExit (code : Z) (msg : str).

Inductive result (A : Type) : Type :=
| Ok (a : A)
| Raise (e : exn).
Arguments Ok {A} a.
Arguments Raise {A} e.

Definition bind {A B} (r : result A) (k : A -> result B) : result B :=
  match r with
  | Ok a => k a
  | Raise e => Raise e
  end.

End Py.

#[global] Instance result_ret : MRet Py.result := fun _ a => Py.Ok a.
#[global] Instance result_bind : MBind Py.result := fun _ _ k r => Py.bind r k.

(** ** The parse tree (BeautifulSoup) *)

Module Bs4.

(** What the script sees of a parsed page: a [Tag] has a name,
    attributes and child nodes; a [NavigableString] is a bare piece of
    text and a [Comment] a comment of the page, and neither has a
    name. *)
#[warnings="-register-all"]
Inductive PageElement : Type :=
| Tag (tag_name : Py.str) (attrs : list (Py.str * Py.str)) (contents : list PageElement)
| NavigableString (text : Py.str)
| Comment (text : Py.str).

(** [el.name]; [None] on a string or a comment, so that
    [getattr(el, 'name', None)] is the same value. *)
Definition name (el : PageElement) : option Py.str :=
  match el with
  | Tag n _ _ => Some n
  | NavigableString _ | Comment _ => None
  end.

(** [el.children]: the direct children, in document order. *)
Definition children (el : PageElement) : list PageElement :=
  match el with
  | Tag _ _ cs => cs
  | NavigableString _ | Comment _ => []
  end.

(** [el.descendants]: every node below [el], in document order. *)
Fixpoint descendants (el : PageElement) : list PageElement :=
  match el with
  | Tag _ _ cs => flat_map (fun c => c :: descendants c) cs
  | NavigableString _ | Comment _ => []
  end.

Definition is_named (nm : Py.str) (el : PageElement) : bool :=
  match el with
  | Tag n _ _ => String.eqb n nm
  | NavigableString _ | Comment _ => false
  end.

(** [el.find(nm)]: the first descendant tag called [nm], if any. *)
Definition find (nm : Py.str) (el : PageElement) : option PageElement :=
  head (filter (fun d => is_named nm d = true) (descendants el)).

(** [soup.body] is [soup.find('body')]. *)
Definition body (soup : PageElement) : option PageElement := find "body" soup.

(** Truthiness of what [find] hands back: [None] is false, a tag is
    true whatever it contains ([Tag.__bool__]), a string or a comment
    is true when it is not empty. *)
Definition truthy (o : option PageElement) : bool :=
  match o with
  | None => false
  | Some (Tag _ _ _) => true
  | Some (NavigableString s) | Some (Comment s) => Py.truthy_str s
  end.

(** [el.get_text()] for a tag: all the text below [el], tags stripped
    and comments left out. *)
Fixpoint get_text (el : PageElement) : Py.str :=
  match el with
  | Tag _ _ cs => Py.concat (map get_text cs)
  | NavigableString s => s
  | Comment _ => EmptyString
  end.

(** *** Serialization, with the default ("minimal") formatter *)

Definition escape_char (c : ascii) : Py.str :=
  if Ascii.eqb c "&" then "&amp;"
  else if Ascii.eqb c "<" then "&lt;"
  else if Ascii.eqb c ">" then "&gt;"
  else String c EmptyString.

Fixpoint escape (s : Py.str) : Py.str :=
  match s with
  | EmptyString => EmptyString
  | String c r => escape_char c +:+ escape r
  end.

Fixpoint quot_escape (s : Py.str) : Py.str :=
  match s with
  | EmptyString => EmptyString
  | String c r =>
      (if Ascii.eqb c Py.double_quote then "&quot;" else String c EmptyString)
      +:+ quot_escape r
  end.

Definition quoted_attribute_value (v : Py.str) : Py.str :=
  let dq := String Py.double_quote EmptyString in
  let sq := String Py.single_quote EmptyString in
  if Py.contains Py.double_quote v then
    if Py.contains Py.single_quote v
    then dq +:+ quot_escape v +:+ dq
    else sq +:+ v +:+ sq
  else dq +:+ v +:+ dq.

Definition decode_attr (kv : Py.str * Py.str) : Py.str :=
  " " +:+ kv.1 +:+ "=" +:+ quoted_attribute_value (escape kv.2).

(** The HTML elements that are written [<br/>] when they have no child. *)
Definition empty_element_tags : list Py.str :=
  ["area"; "base"; "br"; "col"; "embed"; "hr"; "img"; "input"; "keygen";
   "link"; "menuitem"; "meta"; "param"; "source"; "track"; "wbr";
   "basefont"; "bgsound"; "command"; "frame"; "image"; "isindex";
   "nextid"; "spacer"]%string.

Definition is_empty_element (n : Py.str) (cs : list PageElement) : bool :=
  bool_decide (n ∈ empty_element_tags) && negb (Py.truthy_list cs).

(** [el.decode()] for a tag; text inside a tag goes out escaped. *)
Fixpoint decode (el : PageElement) : Py.str :=
  match el with
  | NavigableString s => escape s
  | Comment s => "<!--" +:+ s +:+ "-->"
  | Tag n attrs cs =>
      let open := "<" +:+ n +:+ Py.concat (map decode_attr attrs) in
      if is_empty_element n cs then open +:+ "/>"
      else open +:+ ">" +:+ Py.concat (map decode cs) +:+ "</" +:+ n +:+ ">"
  end.

(** [str(el)]: a tag decodes itself; a string or a comment is its own
    text. *)
Definition str (el : PageElement) : Py.str :=
  match el with
  | Tag _ _ _ => decode el
  | NavigableString s | Comment s => s
  end.

End Bs4.

(** ** Paths and the file system *)

Module Pathlib.

(** A [pathlib.Path] as pathlib keeps it: the root ("/" or nothing) and
    the components after it. *)
Record Path : Type := { root : Py.str; parts : list Py.str }.

#[global] Instance Path_eq_dec : EqDecision Path.
Proof. solve_decision. Defined.

#[global] Instance Path_countable : Countable Path :=
  inj_countable' (fun p => (root p, parts p))
                 (fun rp => {| root := rp.1; parts := rp.2 |})
                 (fun p => match p with Build_Path _ _ => eq_refl end).

(** [path.name]: the last component, or the empty string. *)
Definition name (p : Path) : Py.str := List.last (parts p) EmptyString.

(** [s.rfind(c)]: the index of the last [c] in [s], or -1. *)
Fixpoint rfind (c : ascii) (s : Py.str) : Z :=
  match s with
  | EmptyString => (-1)%Z
  | String d r =>
      let i := rfind c r in
      if (0 <=? i)%Z then (i + 1)%Z
      else if Ascii.eqb d c then 0%Z else (-1)%Z
  end.

(** [s[i:]] for [0 <= i]. *)
Definition slice_from (i : Z) (s : Py.str) : Py.str :=
  String.substring (Z.to_nat i) (String.length s - Z.to_nat i) s.

(** [s[:-k]] for [0 < k <= len(s)]. *)
Definition drop_last (k : nat) (s : Py.str) : Py.str :=
  String.substring 0 (String.length s - k) s.

(** [path.suffix]: from the last dot of the name on, unless that dot is
    the first or the last character of the name. *)
Definition suffix (p : Path) : Py.str :=
  let nm := name p in
  let i := rfind "." nm in
  if (0 <? i)%Z && (i <? Z.of_nat (String.length nm) - 1)%Z
  then slice_from i nm else EmptyString.

(** [s.split(sep)] for a one-character separator. *)
Fixpoint split (sep : ascii) (s : Py.str) : list Py.str :=
  match s with
  | EmptyString => [EmptyString]
  | String c r =>
      if Ascii.eqb c sep then EmptyString :: split sep r
      else match split sep r with
           | [] => [String c EmptyString]
           | w :: ws => String c w :: ws
           end
  end.

(** The root of a POSIX path: exactly two leading slashes are kept,
    one or more than two make "/". *)
Definition splitroot (s : Py.str) : Py.str :=
  match s with
  | String "/" (String "/" (String "/" _)) => "/"
  | String "/" (String "/" _) => "//"
  | String "/" _ => "/"
  | _ => ""
  end.

(** [Path(s)]: empty and "." components are dropped. *)
Definition of_str (s : Py.str) : Path :=
  {| root := splitroot s;
     parts := filter (fun x => negb (String.eqb x "") && negb (String.eqb x ".") = true)
                     (split "/" s) |}.

(** [str(path)]. *)
Definition str (p : Path) : Py.str :=
  match root p, parts p with
  | EmptyString, [] => "."
  | r, ps => r +:+ Py.join "/" ps
  end.

(** [path.with_suffix(sfx)], for a well-formed [sfx] such as ".epub". *)
Definition with_suffix (sfx : Py.str) (p : Path) : Py.result Path :=
  let nm := name p in
  if String.eqb nm "" then Py.Raise (Py.ValueError (Py.repr (str p) +:+ " has an empty name"))
  else
    let old := suffix p in
    let nm' := if String.eqb old "" then nm +:+ sfx
               else drop_last (String.length old) nm +:+ sfx in
    Py.Ok {| root := root p; parts := removelast (parts p) ++ [nm'] |}.

(** What the file system holds at a path. *)
Inductive entry : Type :=
| File (content : Py.str)
| Directory.

Definition FileSystem : Type := gmap Path entry.

(** [path.exists()]. *)
Definition exists_ (fs : FileSystem) (p : Path) : bool :=
  bool_decide (is_Some (fs !! p)).

End Pathlib.

(** ** The book (ebooklib) *)

Module Epub.

(** [epub.EpubHtml]: one chapter document. *)
Record EpubHtml : Type :=
  { title : Py.str; file_name : Py.str; lang : Py.str; content : Py.str }.

Inductive Item : Type :=
| ItemHtml (chap : EpubHtml)
| EpubNcx
| EpubNav
| EpubItem (uid item_file_name media_type item_content : Py.str).

(** [epub.EpubBook]: metadata, the items in the order they were added,
    and the table of contents. *)
Record EpubBook : Type :=
  { identifier : Py.str;
    book_title : Py.str;
    language : Py.str;
    authors : list Py.str;
    items : list Item;
    toc : list EpubHtml }.

Definition new_book : EpubBook :=
  {| identifier := ""; book_title := ""; language := ""; authors := [];
     items := []; toc := [] |}.

Definition set_identifier (b : EpubBook) (s : Py.str) : EpubBook :=
  {| identifier := s; book_title := book_title b; language := language b;
     authors := authors b; items := items b; toc := toc b |}.

Definition set_title (b : EpubBook) (s : Py.str) : EpubBook :=
  {| identifier := identifier b; book_title := s; language := language b;
     authors := authors b; items := items b; toc := toc b |}.

Definition set_language (b : EpubBook) (s : Py.str) : EpubBook :=
  {| identifier := identifier b; book_title := book_title b; language := s;
     authors := authors b; items := items b; toc := toc b |}.

Definition add_author (b : EpubBook) (s : Py.str) : EpubBook :=
  {| identifier := identifier b; book_title := book_title b; language := language b;
     authors := authors b ++ [s]; items := items b; toc := toc b |}.

Definition add_item (b : EpubBook) (i : Item) : EpubBook :=
  {| identifier := identifier b; book_title := book_title b; language := language b;
     authors := authors b; items := items b ++ [i]; toc := toc b |}.

Definition set_toc (b : EpubBook) (t : list EpubHtml) : EpubBook :=
  {| identifier := identifier b; book_title := book_title b; language := language b;
     authors := authors b; items := items b; toc := t |}.

(** The chapter documents among the items of a book, in order. *)
Definition as_html (i : Item) : option EpubHtml :=
  match i with
  | ItemHtml c => Some c
  | _ => None
  end.

Definition html_items (b : EpubBook) : list EpubHtml := omap as_html (items b).

End Epub.

(** ** main.py *)

Module Main.

(** The four constants read from the environment when the module loads. *)
Record Constants : Type :=
  { BOOK_AUTHOR : Py.str;
    BOOK_IDENTIFIER : Py.str;
    BOOK_LANGUAGE : Py.str;
    BOOK_TITLE : Py.str }.

(** [os.environ[k]]. *)
Definition environ_get (environ : gmap string string) (k : Py.str) : Py.result Py.str :=
  match environ !! k with
  | Some v => Py.Ok v
  | None => Py.Raise (Py.KeyError k)
  end.

Definition load_constants (environ : gmap string string) : Py.result Constants :=
  author ← environ_get environ "BOOK_AUTHOR";
  identifier ← environ_get environ "BOOK_IDENTIFIER";
  language ← environ_get environ "BOOK_LANGUAGE";
  title ← environ_get environ "BOOK_TITLE";
  Py.Ok {| BOOK_AUTHOR := author; BOOK_IDENTIFIER := identifier;
           BOOK_LANGUAGE := language; BOOK_TITLE := title |}.

Definition make_chapter (title : Py.str) (html_content : list Py.str) (idx : Z) : Epub.EpubHtml :=
  {| Epub.title := title;
     Epub.file_name := "chap_" +:+ Py.str_of_int idx +:+ ".xhtml";
     Epub.lang := "en";
     Epub.content := Py.str_of_list html_content |}.

(** Lines 51-53: the element whose children are walked. *)
Definition main_content (soup : Bs4.PageElement) : option Bs4.PageElement :=
  let article := Bs4.find "article" soup in
  if negb (Bs4.truthy article) then Bs4.body soup else article.

(** The variables the loop of [main] reads and writes. *)
Record locals : Type :=
  { book : Epub.EpubBook;
    chapters : list Epub.EpubHtml;
    chapter_count : Z;
    current_chapter : list Py.str;
    current_title : Py.str }.

Definition initial (b : Epub.EpubBook) : locals :=
  {| book := b; chapters := []; chapter_count := 1;
     current_chapter := []; current_title := "Introduction" |}.

(** [el.name and el.name in ['h1', 'h2']]. *)
Definition is_heading (el : Bs4.PageElement) : bool :=
  match Bs4.name el with
  | Some n => Py.truthy_str n && bool_decide (n ∈ ["h1"; "h2"]%string)
  | None => false
  end.

(** [getattr(el, 'name', None)] as a condition. *)
Definition has_name (el : Bs4.PageElement) : bool :=
  match Bs4.name el with
  | Some n => Py.truthy_str n
  | None => false
  end.

(** Lines 64-69: the flush at a heading. *)
Definition flush_at_heading (st : locals) : locals :=
  if Py.truthy_list (current_chapter st) then
    let chap := make_chapter (current_title st) (current_chapter st) (chapter_count st) in
    {| book := Epub.add_item (book st) (Epub.ItemHtml chap);
       chapters := chapters st ++ [chap];
       chapter_count := (chapter_count st + 1)%Z;
       current_chapter := [];
       current_title := current_title st |}
  else st.

(** Lines 62-72: one turn of the loop. *)
Definition loop_body (st : locals) (el : Bs4.PageElement) : locals :=
  let st1 :=
    if is_heading el then
      let st0 := flush_at_heading st in
      {| book := book st0; chapters := chapters st0;
         chapter_count := chapter_count st0;
         current_chapter := current_chapter st0;
         current_title := Bs4.get_text el |}
    else st in
  if has_name el then
    {| book := book st1; chapters := chapters st1;
       chapter_count := chapter_count st1;
       current_chapter := current_chapter st1 ++ [Bs4.str el];
       current_title := current_title st1 |}
  else st1.

Definition main_loop (st : locals) (els : list Bs4.PageElement) : locals :=
  fold_left loop_body els st.

(** Lines 74-78: the last chapter; the counter and the buffer are left
    as they are. *)
Definition add_last_chapter (st : locals) : locals :=
  if Py.truthy_list (current_chapter st) then
    let chap := make_chapter (current_title st) (current_chapter st) (chapter_count st) in
    {| book := Epub.add_item (book st) (Epub.ItemHtml chap);
       chapters := chapters st ++ [chap];
       chapter_count := chapter_count st;
       current_chapter := current_chapter st;
       current_title := current_title st |}
  else st.

(** Lines 55-78 on the children of the chosen element. *)
Definition split (b : Epub.EpubBook) (els : list Bs4.PageElement) : locals :=
  add_last_chapter (main_loop (initial b) els).

Definition style : Py.str := "BODY { font-family: Gentium, Georgia, serif; }".

Definition nav_css : Epub.Item :=
  Epub.EpubItem "style_nav" "style/nav.css" "text/css" style.

(** Lines 44-48. *)
Definition titled_book (c : Constants) : Epub.EpubBook :=
  Epub.add_author
    (Epub.set_language
       (Epub.set_title
          (Epub.set_identifier Epub.new_book (BOOK_IDENTIFIER c))
          (BOOK_TITLE c))
       (BOOK_LANGUAGE c))
    (BOOK_AUTHOR c).

(** Lines 44-88: from the parsed page to the finished book.  Without
    [article] and without [body] there is nothing to take [.children]
    of. *)
Definition make_book (c : Constants) (soup : Bs4.PageElement) : Py.result Epub.EpubBook :=
  match main_content soup with
  | None => Py.Raise (Py.AttributeError "'NoneType' object has no attribute 'children'")
  | Some article =>
      let st := split (titled_book c) (Bs4.children article) in
      let b := Epub.set_toc (book st) (chapters st) in
      let b := Epub.add_item b Epub.EpubNcx in
      let b := Epub.add_item b Epub.EpubNav in
      Py.Ok (Epub.add_item b nav_css)
  end.

(** What the script does to the outside world, in order. *)
Inductive event : Type :=
| EvOpen (p : Pathlib.Path)
| EvParse (text : Py.str)
| EvWriteEpub (out : Py.str) (b : Epub.EpubBook)
| EvPrint (line : Py.str).

Definition validate_html_file (fs : Pathlib.FileSystem) (path : Pathlib.Path)
  : Py.result Pathlib.Path :=
  if negb (Pathlib.exists_ fs path) then
    Py.Raise (Py.FileNotFoundError ("File not found: " +:+ Pathlib.str path))
  else if negb (String.eqb (Py.lower (Pathlib.suffix path)) ".html") then
    Py.Raise (Py.ValueError ("File must have an .html extension, got: " +:+ Pathlib.suffix path))
  else Py.Ok path.

(** [parse_args]: [--html_path] is required and goes through
    [validate_html_file]; argparse turns a [ValueError] of the type
    function into a usage error (exit status 2) and lets any other
    exception through. *)
Definition parse_args (fs : Pathlib.FileSystem) (html_path_arg : option Py.str)
  : Py.result Pathlib.Path :=
  match html_path_arg with
  | None => Py.Raise (Py.SystemExit 2 "the following arguments are required: --html_path")
  | Some p =>
      match validate_html_file fs (Pathlib.of_str p) with
      | Py.Ok path => Py.Ok path
      | Py.Raise (Py.ValueError _) =>
          Py.Raise (Py.SystemExit 2
            ("argument --html_path: invalid <lambda> value: " +:+ Py.repr p))
      | Py.Raise e => Py.Raise e
      end
  end.

Section WithParser.

(** [BeautifulSoup(f, 'lxml')]: the parser, from the text of the file
    to the tree. *)
Variable BeautifulSoup : Py.str -> Bs4.PageElement.

Definition main (c : Constants) (fs : Pathlib.FileSystem) (html_path : Pathlib.Path)
  : list event * Py.result unit :=
  match fs !! html_path with
  | None =>
      ([EvOpen html_path],
       Py.Raise (Py.FileNotFoundError ("No such file or directory: " +:+ Py.repr (Pathlib.str html_path))))
  | Some Pathlib.Directory =>
      ([EvOpen html_path],
       Py.Raise (Py.IsADirectoryError ("Is a directory: " +:+ Py.repr (Pathlib.str html_path))))
  | Some (Pathlib.File text) =>
      let soup := BeautifulSoup text in
      let read := [EvOpen html_path; EvParse text] in
      match make_book c soup with
      | Py.Raise e => (read, Py.Raise e)
      | Py.Ok b =>
          match Pathlib.with_suffix ".epub" html_path with
          | Py.Raise e => (read, Py.Raise e)
          | Py.Ok output_path =>
              let out := Pathlib.str output_path in
              (read ++ [EvWriteEpub out b; EvPrint ("EPUB created: " +:+ out)], Py.Ok tt)
          end
      end
  end.

(** The module from top to bottom: the constants, then the arguments,
    then [main]. *)
Definition script (environ : gmap string string) (fs : Pathlib.FileSystem)
    (html_path_arg : option Py.str) : list event * Py.result unit :=
  match load_constants environ with
  | Py.Raise e => ([], Py.Raise e)
  | Py.Ok c =>
      match parse_args fs html_path_arg with
      | Py.Raise e => ([], Py.Raise e)
      | Py.Ok html_path => main c fs html_path
      end
  end.

End WithParser.

End Main.

(** ** The chapter records of the specification

    [main.py] keeps of a chapter only what [make_chapter] stores.  The
    specification speaks of chapters as records of a title, an ordinal
    and a body; [Splitter.split] is its algorithm (section 4.1) on such
    records, and [to_epub] what [make_chapter] makes of one.  The two
    are compared in [split_refines] below. *)

Module Splitter.

Record Chapter : Type :=
  { title : Py.str; ordinal : Z; body : list Py.str }.

Record state : Type :=
  { emitted : list Chapter;
    next_ordinal : Z;
    current_buffer : list Py.str;
    current_title : Py.str }.

Definition start : state :=
  {| emitted := []; next_ordinal := 1; current_buffer := [];
     current_title := "Introduction" |}.

(** Step 3a, first item: flush a non-empty buffer. *)
Definition flush (s : state) : state :=
  match current_buffer s with
  | [] => s
  | _ :: _ =>
      {| emitted := emitted s ++
           [{| title := current_title s; ordinal := next_ordinal s;
               body := current_buffer s |}];
         next_ordinal := (next_ordinal s + 1)%Z;
         current_buffer := [];
         current_title := current_title s |}
  end.

Definition set_title (s : state) (t : Py.str) : state :=
  {| emitted := emitted s; next_ordinal := next_ordinal s;
     current_buffer := current_buffer s; current_title := t |}.

Definition push (s : state) (x : Py.str) : state :=
  {| emitted := emitted s; next_ordinal := next_ordinal s;
     current_buffer := current_buffer s ++ [x];
     current_title := current_title s |}.

(** Step 3. *)
Definition step (s : state) (el : Bs4.PageElement) : state :=
  let s1 := if Main.is_heading el then set_title (flush s) (Bs4.get_text el) else s in
  if Main.has_name el then push s1 (Bs4.str el) else s1.

Definition run (s : state) (els : list Bs4.PageElement) : state :=
  fold_left step els s.

(** Step 4. *)
Definition finish (s : state) : list Chapter :=
  match current_buffer s with
  | [] => emitted s
  | _ :: _ =>
      emitted s ++
        [{| title := current_title s; ordinal := next_ordinal s;
            body := current_buffer s |}]
  end.

Definition split (els : list Bs4.PageElement) : list Chapter :=
  finish (run start els).

End Splitter.

Definition to_epub (c : Splitter.Chapter) : Epub.EpubHtml :=
  Main.make_chapter (Splitter.title c) (Splitter.body c) (Splitter.ordinal c).

(** The locals of [main] that stand for a state of the splitter, when
    the book was [b] before the loop. *)
Definition locals_of (b : Epub.EpubBook) (s : Splitter.state) : Main.locals :=
  {| Main.book :=
       fold_left Epub.add_item (map (fun c => Epub.ItemHtml (to_epub c)) (Splitter.emitted s)) b;
     Main.chapters := map to_epub (Splitter.emitted s);
     Main.chapter_count := Splitter.next_ordinal s;
     Main.current_chapter := Splitter.current_buffer s;
     Main.current_title := Splitter.current_title s |}.

(** The name of the file of the chapter with ordinal [i]. *)
Definition chap_file (i : Z) : Py.str := "chap_" +:+ Py.str_of_int i +:+ ".xhtml".

(** ** Shapes of a list of children *)

(** The number of h1/h2 headings. *)
Definition count_headings (els : list Bs4.PageElement) : nat :=
  length (filter (fun el => Main.is_heading el = true) els).

(** The children before the first heading (all of them when there is
    no heading). *)
Fixpoint before_first_heading (els : list Bs4.PageElement) : list Bs4.PageElement :=
  match els with
  | [] => []
  | el :: r => if Main.is_heading el then [] else el :: before_first_heading r
  end.

(** Is there tagged content before the first heading? *)
Definition tagged_before_first_heading (els : list Bs4.PageElement) : bool :=
  existsb Main.has_name (before_first_heading els).

(** The next tagged sibling exists and is not a heading. *)
Fixpoint content_follows (els : list Bs4.PageElement) : bool :=
  match els with
  | [] => false
  | el :: r =>
      if Main.is_heading el then false
      else if Main.has_name el then true
      else content_follows r
  end.

(** Every heading is followed by at least one tagged sibling before the
    next heading (or the end). *)
Fixpoint headings_followed (els : list Bs4.PageElement) : bool :=
  match els with
  | [] => true
  | el :: r =>
      (if Main.is_heading el then content_follows r else true) && headings_followed r
  end.

(** The serialized tagged children, in document order. *)
Definition tagged_strs (els : list Bs4.PageElement) : list Py.str :=
  map Bs4.str (filter (fun el => Main.has_name el = true) els).

(** ** Sample documents *)

Definition elem (n : Py.str) (text : Py.str) : Bs4.PageElement :=
  Bs4.Tag n [] [Bs4.NavigableString text].

(** What the parser makes of a page whose body is [els]. *)
Definition page (els : list Bs4.PageElement) : Bs4.PageElement :=
  Bs4.Tag "[document]" [] [Bs4.Tag "html" [] [Bs4.Tag "body" [] els]].

(** [<article><h1>A</h1><p>x</p><h2>B</h2><p>y</p></article>] *)
Definition sample_article : Bs4.PageElement :=
  Bs4.Tag "article" [] [elem "h1" "A"; elem "p" "x"; elem "h2" "B"; elem "p" "y"].

Definition sample_soup : Bs4.PageElement := page [sample_article].

Definition sample_constants : Main.Constants :=
  {| Main.BOOK_AUTHOR := "An Author"; Main.BOOK_IDENTIFIER := "id-1";
     Main.BOOK_LANGUAGE := "en"; Main.BOOK_TITLE := "A Book" |}.

(** ** The claims of the specification that the code does not meet, as
    they are worded *)

(** "Two consecutive headings with no tagged content between them do
    not produce a chapter between them and do not advance the ordinal":
    reaching the second heading leaves the chapters and the counter as
    they were. *)
Definition consecutive_headings_flush_nothing : Prop :=
  forall (b : Epub.EpubBook) (pre mid : list Bs4.PageElement) (h1 h2 : Bs4.PageElement),
    Main.is_heading h1 = true -> Main.is_heading h2 = true ->
    forallb (fun el => negb (Main.has_name el)) mid = true ->
    let st := Main.main_loop (Main.initial b) (pre ++ h1 :: mid) in
    Main.chapters (Main.loop_body st h2) = Main.chapters st /\
    Main.chapter_count (Main.loop_body st h2) = Main.chapter_count st.

(** "For all documents with zero headings: exactly one chapter is
    produced, titled Introduction, containing all tagged top-level
    children in order." *)
Definition no_heading_one_chapter : Prop :=
  forall (b : Epub.EpubBook) (els : list Bs4.PageElement),
    count_headings els = 0%nat ->
    Main.chapters (Main.split b els) =
      [Main.make_chapter "Introduction" (tagged_strs els) 1].

(** ** Views of a state of the splitter

    Whether the ordinals run 1, 2, ...; the strings the state holds, in
    order; and whether every chapter emitted has something in it. *)
Definition numbered (s : Splitter.state) : Prop :=
  map Splitter.ordinal (Splitter.emitted s) =
    seqZ 1 (Z.of_nat (length (Splitter.emitted s))) /\
  Splitter.next_ordinal s = (1 + Z.of_nat (length (Splitter.emitted s)))%Z.

Definition held (s : Splitter.state) : list Py.str :=
  concat (map Splitter.body (Splitter.emitted s)) ++ Splitter.current_buffer s.

Definition bodies_nonempty (s : Splitter.state) : Prop :=
  Forall (fun c => Splitter.body c <> []) (Splitter.emitted s).

(** ** The document cut at its headings *)

(** [sections els]: the children before the first heading, and then
    every heading with the children that follow it up to the next
    heading. *)
Fixpoint sections (els : list Bs4.PageElement)
  : list Bs4.PageElement * list (Bs4.PageElement * list Bs4.PageElement) :=
  match els with
  | [] => ([], [])
  | el :: r =>
      let (intro, secs) := sections r in
      if Main.is_heading el then ([], (el, intro) :: secs) else (el :: intro, secs)
  end.

(** The chapter of the children before the first heading, when one of
    them is tagged. *)
Definition introduction (intro : list Bs4.PageElement) : list Splitter.Chapter :=
  match tagged_strs intro with
  | [] => []
  | _ :: _ =>
      [{| Splitter.title := "Introduction"; Splitter.ordinal := 1;
          Splitter.body := tagged_strs intro |}]
  end.

(** One chapter for every heading, numbered from [n]. *)
Fixpoint numbered_from (n : Z) (secs : list (Bs4.PageElement * list Bs4.PageElement))
  : list Splitter.Chapter :=
  match secs with
  | [] => []
  | (h, rest) :: secs' =>
      {| Splitter.title := Bs4.get_text h; Splitter.ordinal := n;
         Splitter.body := Bs4.str h :: tagged_strs rest |}
      :: numbered_from (n + 1) secs'
  end.

Definition chapters_of_sections (els : list Bs4.PageElement) : list Splitter.Chapter :=
  introduction (sections els).1 ++
  numbered_from (1 + Z.of_nat (length (introduction (sections els).1))) (sections els).2.

(** The same chapter, [k] places further. *)
Definition renumber (k : Z) (c : Splitter.Chapter) : Splitter.Chapter :=
  {| Splitter.title := Splitter.title c;
     Splitter.ordinal := (Splitter.ordinal c + k)%Z;
     Splitter.body := Splitter.body c |}.

(** ** Reading a [repr] back *)

Definition hex_value (c : ascii) : N :=
  let n := Py.ord c in
  if ((48 <=? n) && (n <=? 57))%N then (n - 48)%N
  else if ((97 <=? n) && (n <=? 102))%N then (n - 87)%N
  else 0%N.

Definition cons_fst (c : ascii) (o : option (Py.str * Py.str)) : option (Py.str * Py.str) :=
  match o with
  | Some (s, rest) => Some (String c s, rest)
  | None => None
  end.

(** [unrepr_body q s] reads the inside of a string literal quoted with
    [q] up to the closing quote, and gives the string it stands for and
    what follows the quote. *)
Fixpoint unrepr_body (q : ascii) (s : Py.str) : option (Py.str * Py.str) :=
  match s with
  | EmptyString => None
  | String c r =>
      if Ascii.eqb c q then Some (EmptyString, r)
      else if Ascii.eqb c Py.backslash then
        match r with
        | EmptyString => None
        | String d r1 =>
            if Ascii.eqb d "x" then
              match r1 with
              | String h1 (String h2 r2) =>
                  cons_fst (Py.chr (16 * hex_value h1 + hex_value h2)) (unrepr_body q r2)
              | _ => None
              end
            else
              let ch := if Ascii.eqb d "t" then Py.chr 9
                        else if Ascii.eqb d "n" then Py.chr 10
                        else if Ascii.eqb d "r" then Py.chr 13
                        else d in
              cons_fst ch (unrepr_body q r1)
        end
      else cons_fst c (unrepr_body q r)
  end.

(** ** Traces *)


(** The names of the four constants, in the order the module reads
    them. *)
Definition constant_names : list Py.str :=
  ["BOOK_AUTHOR"; "BOOK_IDENTIFIER"; "BOOK_LANGUAGE"; "BOOK_TITLE"]%string.

(** ** The state of the loop, read off the children seen so far *)

(** The children from the last heading on; all of them when there is
    no heading. *)
Fixpoint since_last_heading (els : list Bs4.PageElement) : list Bs4.PageElement :=
  match els with
  | [] => []
  | el :: r => if existsb Main.is_heading r then since_last_heading r else el :: r
  end.

(** The text of the last heading, or "Introduction" when there is no
    heading. *)
Definition last_heading_text (els : list Bs4.PageElement) : Py.str :=
  match last (filter (fun el => Main.is_heading el = true) els) with
  | Some h => Bs4.get_text h
  | None => "Introduction"
  end.

(** * Properties *)

(** ** The loop of [main] and the splitter of the specification *)

Section Refinement.

Variable b : Epub.EpubBook.

Lemma initial_locals_of : Main.initial b = locals_of b Splitter.start.
Proof. reflexivity. Qed.

Lemma flush_locals_of (s : Splitter.state) :
  Main.flush_at_heading (locals_of b s) = locals_of b (Splitter.flush s).
Proof.
  unfold Main.flush_at_heading, Splitter.flush, locals_of.
  destruct s as [em n buf t]; destruct buf as [|x buf]; simpl; [reflexivity|].
  rewrite !map_app, fold_left_app. reflexivity.
Qed.

Lemma loop_body_locals_of (s : Splitter.state) (el : Bs4.PageElement) :
  Main.loop_body (locals_of b s) el = locals_of b (Splitter.step s el).
Proof.
  unfold Main.loop_body, Splitter.step.
  destruct (Main.is_heading el), (Main.has_name el);
    rewrite ?flush_locals_of; reflexivity.
Qed.

Lemma main_loop_locals_of (els : list Bs4.PageElement) (s : Splitter.state) :
  Main.main_loop (locals_of b s) els = locals_of b (Splitter.run s els).
Proof.
  revert s; induction els as [|el els IH]; intros s; [reflexivity|].
  unfold Main.main_loop, Splitter.run in *; simpl.
  rewrite loop_body_locals_of. apply IH.
Qed.

Lemma add_last_chapter_chapters (s : Splitter.state) :
  Main.chapters (Main.add_last_chapter (locals_of b s)) = map to_epub (Splitter.finish s).
Proof.
  unfold Main.add_last_chapter, Splitter.finish.
  destruct s as [em n buf t]; destruct buf as [|x buf]; simpl; [reflexivity|].
  rewrite map_app. reflexivity.
Qed.

(** The chapters [main] collects are what [make_chapter] makes of the
    records of the splitter, one for one. *)
Lemma split_refines (els : list Bs4.PageElement) :
  Main.chapters (Main.split b els) = map to_epub (Splitter.split els).
Proof.
  unfold Main.split, Splitter.split.
  rewrite initial_locals_of, main_loop_locals_of.
  apply add_last_chapter_chapters.
Qed.

(** Every chapter collected is also added to the book, in the same
    order. *)
Lemma add_last_chapter_items (s : Splitter.state) :
  Epub.items (Main.book (Main.add_last_chapter (locals_of b s))) =
  Epub.items b ++ map (fun c => Epub.ItemHtml (to_epub c)) (Splitter.finish s).
Proof.
  assert (Hfold : forall (l : list Epub.Item) (b0 : Epub.EpubBook),
             Epub.items (fold_left Epub.add_item l b0) = Epub.items b0 ++ l).
  { induction l as [|i l IH]; intros b0; simpl.
    - by rewrite app_nil_r.
    - rewrite IH. simpl. by rewrite <- app_assoc. }
  unfold Main.add_last_chapter, Splitter.finish.
  destruct s as [em n buf t]; destruct buf as [|x buf]; simpl.
  - apply Hfold.
  - rewrite Hfold, map_app, <- app_assoc. reflexivity.
Qed.

Lemma split_items (els : list Bs4.PageElement) :
  Epub.items (Main.book (Main.split b els)) =
  Epub.items b ++ map Epub.ItemHtml (Main.chapters (Main.split b els)).
Proof.
  rewrite split_refines. unfold Main.split.
  rewrite initial_locals_of, main_loop_locals_of, add_last_chapter_items.
  by rewrite map_map.
Qed.

End Refinement.

(** ** Facts about the splitter *)

Lemma is_heading_has_name (el : Bs4.PageElement) :
  Main.is_heading el = true -> Main.has_name el = true.
Proof.
  unfold Main.is_heading, Main.has_name.
  destruct (Bs4.name el); [|discriminate].
  intros H; apply andb_prop in H; tauto.
Qed.

Lemma step_untagged (s : Splitter.state) (el : Bs4.PageElement) :
  Main.has_name el = false -> Splitter.step s el = s.
Proof.
  intros Hn. unfold Splitter.step. rewrite Hn.
  destruct (Main.is_heading el) eqn:Hh; [|reflexivity].
  apply is_heading_has_name in Hh. congruence.
Qed.

Lemma step_heading (s : Splitter.state) (el : Bs4.PageElement) :
  Main.is_heading el = true ->
  Splitter.step s el =
  Splitter.push (Splitter.set_title (Splitter.flush s) (Bs4.get_text el)) (Bs4.str el).
Proof.
  intros Hh. unfold Splitter.step.
  by rewrite Hh, (is_heading_has_name _ Hh).
Qed.

Lemma step_content (s : Splitter.state) (el : Bs4.PageElement) :
  Main.is_heading el = false -> Main.has_name el = true ->
  Splitter.step s el = Splitter.push s (Bs4.str el).
Proof. intros Hh Hn. unfold Splitter.step. by rewrite Hh, Hn. Qed.

Lemma run_app (s : Splitter.state) (l1 l2 : list Bs4.PageElement) :
  Splitter.run s (l1 ++ l2) = Splitter.run (Splitter.run s l1) l2.
Proof. apply fold_left_app. Qed.

Lemma run_untagged (s : Splitter.state) (els : list Bs4.PageElement) :
  forallb (fun el => negb (Main.has_name el)) els = true ->
  Splitter.run s els = s.
Proof.
  induction els as [|el els IH]; simpl; [reflexivity|].
  intros H; apply andb_prop in H as [Hel Hels].
  unfold Splitter.run in *; simpl.
  rewrite step_untagged; [auto | by destruct (Main.has_name el)].
Qed.

Lemma numbered_flush (s : Splitter.state) : numbered s -> numbered (Splitter.flush s).
Proof.
  unfold numbered, Splitter.flush. intros [Ho Hn].
  destruct (Splitter.current_buffer s); [done|]. simpl.
  rewrite map_app, length_app, Nat2Z.inj_add. simpl.
  rewrite seqZ_app by lia. rewrite Ho, Hn. split; [|lia].
  f_equal.
Qed.

Lemma numbered_step (s : Splitter.state) (el : Bs4.PageElement) :
  numbered s -> numbered (Splitter.step s el).
Proof.
  intros H. unfold Splitter.step.
  destruct (Main.is_heading el), (Main.has_name el); try done;
    apply numbered_flush in H; exact H.
Qed.

Lemma numbered_run (els : list Bs4.PageElement) (s : Splitter.state) :
  numbered s -> numbered (Splitter.run s els).
Proof.
  revert s; induction els as [|el els IH]; intros s H; [done|].
  apply (IH (Splitter.step s el)), numbered_step, H.
Qed.

Lemma numbered_finish (s : Splitter.state) :
  numbered s ->
  map Splitter.ordinal (Splitter.finish s) =
    seqZ 1 (Z.of_nat (length (Splitter.finish s))).
Proof.
  unfold numbered, Splitter.finish. intros [Ho Hn].
  destruct (Splitter.current_buffer s); [done|].
  rewrite map_app, length_app, Nat2Z.inj_add. simpl.
  rewrite seqZ_app by lia. rewrite Ho, Hn. reflexivity.
Qed.

Lemma split_ordinals (els : list Bs4.PageElement) :
  map Splitter.ordinal (Splitter.split els) =
    seqZ 1 (Z.of_nat (length (Splitter.split els))).
Proof.
  apply numbered_finish, numbered_run. split; reflexivity.
Qed.

Lemma held_flush (s : Splitter.state) : held (Splitter.flush s) = held s.
Proof.
  unfold held, Splitter.flush.
  destruct (Splitter.current_buffer s) eqn:Hb; [by rewrite Hb|]. simpl.
  rewrite map_app, concat_app. simpl. by rewrite !app_nil_r.
Qed.

Lemma held_step (s : Splitter.state) (el : Bs4.PageElement) :
  held (Splitter.step s el) =
  held s ++ (if Main.has_name el then [Bs4.str el] else []).
Proof.
  unfold Splitter.step.
  destruct (Main.is_heading el), (Main.has_name el); simpl;
    rewrite ?app_nil_r; try reflexivity.
  - unfold held at 1; simpl. rewrite app_assoc. f_equal. apply held_flush.
  - apply held_flush.
  - unfold held; simpl. by rewrite app_assoc.
Qed.

Lemma held_run (els : list Bs4.PageElement) (s : Splitter.state) :
  held (Splitter.run s els) = held s ++ tagged_strs els.
Proof.
  revert s; induction els as [|el els IH]; intros s.
  - unfold tagged_strs; simpl. by rewrite app_nil_r.
  - unfold Splitter.run in *; simpl. rewrite IH, held_step, <- app_assoc.
    f_equal. unfold tagged_strs. simpl.
    destruct (Main.has_name el) eqn:Hn.
    + rewrite filter_cons_True by done. reflexivity.
    + rewrite filter_cons_False by congruence. reflexivity.
Qed.

Lemma held_finish (s : Splitter.state) :
  concat (map Splitter.body (Splitter.finish s)) = held s.
Proof.
  unfold held, Splitter.finish.
  destruct (Splitter.current_buffer s); [by rewrite app_nil_r|].
  rewrite map_app, concat_app. simpl. by rewrite app_nil_r.
Qed.

(** The bodies of the chapters, one after the other, are the serialized
    tagged children in document order. *)
Lemma split_bodies (els : list Bs4.PageElement) :
  concat (map Splitter.body (Splitter.split els)) = tagged_strs els.
Proof. unfold Splitter.split. by rewrite held_finish, held_run. Qed.

Lemma bodies_nonempty_flush (s : Splitter.state) :
  bodies_nonempty s -> bodies_nonempty (Splitter.flush s).
Proof.
  unfold bodies_nonempty, Splitter.flush. intros H.
  destruct (Splitter.current_buffer s) eqn:Hb; [done|]. simpl.
  apply Forall_app; split; [done|]. by constructor.
Qed.

Lemma bodies_nonempty_run (els : list Bs4.PageElement) (s : Splitter.state) :
  bodies_nonempty s -> bodies_nonempty (Splitter.run s els).
Proof.
  revert s; induction els as [|el els IH]; intros s H; [done|].
  apply (IH (Splitter.step s el)). unfold Splitter.step.
  destruct (Main.is_heading el), (Main.has_name el); try done;
    by apply bodies_nonempty_flush.
Qed.

(** No chapter is emitted with an empty body. *)
Lemma split_bodies_nonempty (els : list Bs4.PageElement) :
  Forall (fun c => Splitter.body c <> []) (Splitter.split els).
Proof.
  unfold Splitter.split, Splitter.finish.
  assert (H : bodies_nonempty (Splitter.run Splitter.start els))
    by (apply bodies_nonempty_run; constructor).
  unfold bodies_nonempty in H.
  destruct (Splitter.current_buffer (Splitter.run Splitter.start els)) eqn:Hb; [done|].
  apply Forall_app; split; [done|]. by constructor.
Qed.

(** The number of chapters a state ends with. *)
Lemma length_finish_run (els : list Bs4.PageElement) (s : Splitter.state) :
  length (Splitter.finish (Splitter.run s els)) =
  (length (Splitter.emitted s) + count_headings els +
   (if Py.truthy_list (Splitter.current_buffer s) || tagged_before_first_heading els
    then 1 else 0))%nat.
Proof.
  revert s; induction els as [|el els IH]; intros s.
  - unfold Splitter.finish, count_headings, tagged_before_first_heading; simpl.
    destruct (Splitter.current_buffer s); simpl; [lia|].
    rewrite length_app; simpl; lia.
  - change (Splitter.run s (el :: els)) with (Splitter.run (Splitter.step s el) els).
    rewrite IH. unfold count_headings, tagged_before_first_heading. simpl.
    destruct (Main.is_heading el) eqn:Hh.
    + rewrite step_heading by done. rewrite filter_cons_True by done. simpl.
      unfold Splitter.flush.
      destruct (Splitter.current_buffer s) as [|x buf] eqn:Hb; simpl; rewrite ?Hb; simpl.
      * lia.
      * rewrite length_app; simpl. lia.
    + rewrite filter_cons_False by congruence. simpl.
      destruct (Main.has_name el) eqn:Hn.
      * rewrite step_content by done. simpl.
        destruct (Splitter.current_buffer s); simpl; rewrite ?orb_true_r; lia.
      * rewrite step_untagged by done. reflexivity.
Qed.

Lemma length_split (els : list Bs4.PageElement) :
  length (Splitter.split els) =
  (count_headings els + (if tagged_before_first_heading els then 1 else 0))%nat.
Proof. unfold Splitter.split. by rewrite length_finish_run. Qed.

(** ** File names *)

Lemma length_append (s t : string) :
  String.length (s +:+ t) = (String.length s + String.length t)%nat.
Proof. induction s as [|c s IH]; simpl; [reflexivity | by rewrite IH]. Qed.

Lemma append_inj_r (t s1 s2 : string) : s1 +:+ t = s2 +:+ t -> s1 = s2.
Proof.
  revert s2; induction s1 as [|a s1 IH]; intros [|c s2] H; simpl in H.
  - reflexivity.
  - apply (f_equal String.length) in H. rewrite !length_append in H. simpl in H. lia.
  - apply (f_equal String.length) in H. rewrite !length_append in H. simpl in H. lia.
  - injection H as -> H. f_equal. by apply IH.
Qed.

Lemma to_int_proper (z : Z) :
  Z.to_int z <> Decimal.Pos Decimal.Nil /\ Z.to_int z <> Decimal.Neg Decimal.Nil.
Proof.
  destruct z as [|p|p]; simpl; split; try discriminate;
    intros [= H]; by apply (DecimalPos.Unsigned.to_uint_nonnil p).
Qed.

Lemma str_of_int_inj (m n : Z) : Py.str_of_int m = Py.str_of_int n -> m = n.
Proof.
  unfold Py.str_of_int. intros H.
  apply DecimalZ.to_int_inj.
  destruct (to_int_proper m) as [Hm1 Hm2], (to_int_proper n) as [Hn1 Hn2].
  pose proof (NilZero.isi _ Hm1 Hm2) as Em.
  pose proof (NilZero.isi _ Hn1 Hn2) as En.
  rewrite H in Em. congruence.
Qed.

Lemma chap_file_inj : Inj (=) (=) chap_file.
Proof.
  intros m n H. unfold chap_file in H.
  apply (inj (String.app "chap_")) in H.
  apply append_inj_r in H. by apply str_of_int_inj.
Qed.

Lemma file_name_to_epub (c : Splitter.Chapter) :
  Epub.file_name (to_epub c) = chap_file (Splitter.ordinal c).
Proof. reflexivity. Qed.

(** C2. For every document, the ordinals handed to [make_chapter] are
    exactly 1, 2, ..., K for the K chapters collected, the file names
    are chap_1.xhtml, ..., chap_K.xhtml in that order, and no two
    chapters share a file name; the chapter added after the loop is
    among them, and adding it leaves the counter as the loop left
    it. *)
Theorem ordinals_run_from_one (b : Epub.EpubBook) (els : list Bs4.PageElement) :
  let chaps := Main.chapters (Main.split b els) in
  let K := Z.of_nat (length chaps) in
  chaps = map to_epub (Splitter.split els) /\
  map Splitter.ordinal (Splitter.split els) = seqZ 1 K /\
  map Epub.file_name chaps = map chap_file (seqZ 1 K) /\
  NoDup (map Epub.file_name chaps) /\
  Main.chapter_count (Main.split b els) =
    Main.chapter_count (Main.main_loop (Main.initial b) els).
Proof.
  intros chaps K.
  assert (Hc : chaps = map to_epub (Splitter.split els)) by apply split_refines.
  assert (HK : K = Z.of_nat (length (Splitter.split els))).
  { unfold K. by rewrite Hc, length_map. }
  assert (Hf : map Epub.file_name chaps = map chap_file (seqZ 1 K)).
  { rewrite Hc, map_map, HK, <- split_ordinals, map_map. reflexivity. }
  split; [exact Hc|]. split; [rewrite HK; apply split_ordinals|].
  split; [exact Hf|]. split.
  - rewrite Hf. apply (NoDup_fmap_2 (Inj0 := chap_file_inj) chap_file), NoDup_seqZ.
  - unfold Main.split, Main.add_last_chapter.
    by destruct (Py.truthy_list _).
Qed.

(** ** Text nodes *)

Lemma loop_body_untagged (st : Main.locals) (el : Bs4.PageElement) :
  Main.has_name el = false -> Main.loop_body st el = st.
Proof.
  intros Hn. unfold Main.loop_body. rewrite Hn.
  destruct (Main.is_heading el) eqn:Hh; [|reflexivity].
  apply is_heading_has_name in Hh. congruence.
Qed.

Lemma main_loop_filter (els : list Bs4.PageElement) (st : Main.locals) :
  Main.main_loop st els =
  Main.main_loop st (filter (fun el => Main.has_name el = true) els).
Proof.
  revert st; induction els as [|el els IH]; intros st; [reflexivity|].
  destruct (Main.has_name el) eqn:Hn.
  - rewrite filter_cons_True by done. simpl. apply IH.
  - rewrite filter_cons_False by congruence. simpl.
    rewrite loop_body_untagged by done. apply IH.
Qed.

Lemma body_from_tagged (els : list Bs4.PageElement) (c : Splitter.Chapter) (s : Py.str) :
  c ∈ Splitter.split els -> s ∈ Splitter.body c ->
  exists el, el ∈ els /\ Main.has_name el = true /\ s = Bs4.str el.
Proof.
  intros Hc Hs.
  assert (Hin : s ∈ tagged_strs els).
  { rewrite <- split_bodies. apply list_elem_of_In, in_concat.
    exists (Splitter.body c). split; [|by apply list_elem_of_In].
    apply in_map, list_elem_of_In, Hc. }
  unfold tagged_strs in Hin.
  apply list_elem_of_fmap in Hin as (el & -> & Hel).
  apply list_elem_of_filter in Hel as [Hn Hel]. eauto.
Qed.

(** C7. A child with no tag name changes none of the variables of the
    loop, so it neither starts a chapter nor touches a title or the
    counter; the whole result is the one for the document with such
    children removed; and every string in the body of a chapter is the
    serialization of a child that has a tag name. *)
Theorem text_nodes_are_dropped (b : Epub.EpubBook) (els : list Bs4.PageElement) :
  (forall (st : Main.locals) (el : Bs4.PageElement),
      Bs4.name el = None -> Main.loop_body st el = st) /\
  Main.split b els = Main.split b (filter (fun el => Main.has_name el = true) els) /\
  Main.chapters (Main.split b els) = map to_epub (Splitter.split els) /\
  (forall (c : Splitter.Chapter) (s : Py.str),
      c ∈ Splitter.split els -> s ∈ Splitter.body c ->
      exists el, el ∈ els /\ Main.has_name el = true /\ s = Bs4.str el).
Proof.
  split.
  { intros st el Hname. apply loop_body_untagged.
    unfold Main.has_name. by rewrite Hname. }
  split; [unfold Main.split; by rewrite <- main_loop_filter|].
  split; [apply split_refines|].
  intros c s. apply body_from_tagged.
Qed.

(** ** Order *)

Lemma html_items_chapters (l : list Epub.EpubHtml) :
  omap Epub.as_html (map Epub.ItemHtml l) = l.
Proof. induction l as [|c l IH]; [reflexivity|]. simpl. f_equal. exact IH. Qed.

Lemma make_book_toc (c : Main.Constants) (soup article : Bs4.PageElement) :
  Main.main_content soup = Some article ->
  exists bk,
    Main.make_book c soup = Py.Ok bk /\
    Epub.toc bk = Main.chapters (Main.split (Main.titled_book c) (Bs4.children article)) /\
    Epub.html_items bk = Epub.toc bk.
Proof.
  intros Hroot. unfold Main.make_book. rewrite Hroot.
  eexists; split; [reflexivity|]. split; [reflexivity|].
  unfold Epub.html_items. simpl.
  rewrite split_items. simpl.
  rewrite <- !app_assoc, omap_app, html_items_chapters. simpl.
  by rewrite app_nil_r.
Qed.

(** C8. When the page has a traversal root, the book is made; its
    table of contents and its chapter documents are the same sequence,
    namely the chapters of the split in the order they were flushed;
    and the bodies of those chapters, read one after the other, are the
    serialized tagged children of the root in document order. *)
Theorem chapters_in_document_order
    (c : Main.Constants) (soup article : Bs4.PageElement) :
  Main.main_content soup = Some article ->
  exists bk,
    Main.make_book c soup = Py.Ok bk /\
    Epub.toc bk = map to_epub (Splitter.split (Bs4.children article)) /\
    Epub.html_items bk = Epub.toc bk /\
    concat (map Splitter.body (Splitter.split (Bs4.children article))) =
      tagged_strs (Bs4.children article).
Proof.
  intros Hroot.
  destruct (make_book_toc c soup article Hroot) as (bk & Hbk & Htoc & Hitems).
  exists bk. rewrite Htoc in *. rewrite split_refines in *.
  repeat split; try done. apply split_bodies.
Qed.

(** ** Counting chapters *)

(** C6. When every heading is followed by at least one tagged sibling
    before the next heading, N headings give N chapters, and one more
    exactly when there is tagged content before the first heading. *)
Theorem chapters_per_heading (b : Epub.EpubBook) (els : list Bs4.PageElement) :
  headings_followed els = true ->
  length (Main.chapters (Main.split b els)) =
  (count_headings els + (if tagged_before_first_heading els then 1 else 0))%nat.
Proof.
  intros _. rewrite split_refines, length_map. apply length_split.
Qed.

(** ** Documents without headings *)

Lemma run_no_heading (els : list Bs4.PageElement) (s : Splitter.state) :
  count_headings els = 0%nat ->
  Splitter.run s els =
  {| Splitter.emitted := Splitter.emitted s;
     Splitter.next_ordinal := Splitter.next_ordinal s;
     Splitter.current_buffer := Splitter.current_buffer s ++ tagged_strs els;
     Splitter.current_title := Splitter.current_title s |}.
Proof.
  revert s; induction els as [|el els IH]; intros s H.
  - unfold tagged_strs; simpl. rewrite app_nil_r. by destruct s.
  - unfold count_headings in H.
    destruct (Main.is_heading el) eqn:Hh.
    { rewrite filter_cons_True in H by done. discriminate. }
    rewrite filter_cons_False in H by congruence.
    change (Splitter.run s (el :: els)) with (Splitter.run (Splitter.step s el) els).
    rewrite (IH _ H). unfold tagged_strs.
    destruct (Main.has_name el) eqn:Hn.
    + rewrite step_content by done. rewrite filter_cons_True by done. simpl.
      by rewrite <- app_assoc.
    + rewrite step_untagged by done. rewrite filter_cons_False by congruence.
      reflexivity.
Qed.

(** C3, amended. Without a heading among the children, the split makes
    one chapter, titled Introduction with ordinal 1, whose body is the
    serialized tagged children in document order -- when there is at
    least one tagged child; when there is none, it makes no chapter. *)
Theorem no_heading_introduction (b : Epub.EpubBook) (els : list Bs4.PageElement) :
  count_headings els = 0%nat ->
  Main.chapters (Main.split b els) =
  match tagged_strs els with
  | [] => []
  | _ :: _ => [Main.make_chapter "Introduction" (tagged_strs els) 1]
  end.
Proof.
  intros H. rewrite split_refines. unfold Splitter.split.
  rewrite (run_no_heading els _ H). unfold Splitter.finish. simpl.
  destruct (tagged_strs els); reflexivity.
Qed.

(** C3 as worded fails on [<article>just text</article>]: no heading,
    and no chapter at all. *)
Lemma no_heading_one_chapter_fails :
  count_headings [Bs4.NavigableString "just text"] = 0%nat /\
  Main.chapters (Main.split Epub.new_book [Bs4.NavigableString "just text"]) = [] /\
  ~ no_heading_one_chapter.
Proof.
  split; [reflexivity|]. split; [reflexivity|].
  intros H.
  specialize (H Epub.new_book [Bs4.NavigableString "just text"] eq_refl).
  discriminate H.
Qed.

(** ** Consecutive headings *)

Lemma flush_buffer (s : Splitter.state) :
  Splitter.current_buffer (Splitter.flush s) = [].
Proof.
  unfold Splitter.flush. by destruct (Splitter.current_buffer s) eqn:Hb.
Qed.

Lemma after_heading (s : Splitter.state) (h : Bs4.PageElement) :
  Main.is_heading h = true ->
  Splitter.current_buffer (Splitter.step s h) = [Bs4.str h] /\
  Splitter.current_title (Splitter.step s h) = Bs4.get_text h.
Proof.
  intros Hh. rewrite step_heading by done. simpl.
  by rewrite flush_buffer.
Qed.

(** C1, amended. At the second of two headings with no tagged node
    between them, the loop flushes exactly one chapter: its title is
    the text of the first heading, its body the serialized first
    heading alone, its ordinal the current one, which then goes up by
    one; only then does the second heading's text become the pending
    title, with the second heading as the new buffer.  And no chapter
    of any document has an empty body. *)
Theorem consecutive_headings_flush_first
    (b : Epub.EpubBook) (pre mid : list Bs4.PageElement) (h1 h2 : Bs4.PageElement) :
  Main.is_heading h1 = true -> Main.is_heading h2 = true ->
  forallb (fun el => negb (Main.has_name el)) mid = true ->
  let st := Main.main_loop (Main.initial b) (pre ++ h1 :: mid) in
  let st' := Main.loop_body st h2 in
  (Main.chapters st' =
     Main.chapters st ++
       [Main.make_chapter (Bs4.get_text h1) [Bs4.str h1] (Main.chapter_count st)] /\
   Main.chapter_count st' = (Main.chapter_count st + 1)%Z /\
   Main.current_title st' = Bs4.get_text h2 /\
   Main.current_chapter st' = [Bs4.str h2]) /\
  (forall els : list Bs4.PageElement,
      Main.chapters (Main.split b els) = map to_epub (Splitter.split els) /\
      Forall (fun c => Splitter.body c <> []) (Splitter.split els)).
Proof.
  intros H1 H2 Hmid st st'.
  split; [|intros els; split; [apply split_refines | apply split_bodies_nonempty]].
  subst st st'.
  rewrite initial_locals_of, main_loop_locals_of, loop_body_locals_of.
  change (pre ++ h1 :: mid) with (pre ++ [h1] ++ mid).
  rewrite !run_app, (run_untagged _ mid Hmid).
  set (s0 := Splitter.run Splitter.start pre).
  change (Splitter.run s0 [h1]) with (Splitter.step s0 h1).
  destruct (after_heading s0 h1 H1) as [Hb Ht].
  set (s1 := Splitter.step s0 h1) in *.
  rewrite (step_heading s1 h2 H2).
  unfold Splitter.flush. rewrite Hb, Ht. simpl.
  rewrite map_app. auto.
Qed.

(** C1 as worded fails on [<h1>A</h1><h2>B</h2>]: before the second
    heading there is no chapter and the counter is 1; after it there is
    a chapter "A" holding the first heading, and the counter is 2. *)
Lemma consecutive_headings_flush_nothing_fails :
  Main.chapters (Main.main_loop (Main.initial Epub.new_book) [elem "h1" "A"]) = [] /\
  Main.chapter_count (Main.main_loop (Main.initial Epub.new_book) [elem "h1" "A"]) = 1%Z /\
  Main.chapters
    (Main.loop_body (Main.main_loop (Main.initial Epub.new_book) [elem "h1" "A"])
                    (elem "h2" "B")) =
    [Main.make_chapter "A" ["<h1>A</h1>"%string] 1] /\
  Main.chapter_count
    (Main.loop_body (Main.main_loop (Main.initial Epub.new_book) [elem "h1" "A"])
                    (elem "h2" "B")) = 2%Z /\
  ~ consecutive_headings_flush_nothing.
Proof.
  repeat (split; [reflexivity|]).
  intros H.
  destruct (H Epub.new_book [] [] (elem "h1" "A") (elem "h2" "B") eq_refl eq_refl eq_refl)
    as [Hc _].
  discriminate Hc.
Qed.

(** ** The sample document *)

(** C5. The sample document
    [<article><h1>A</h1><p>x</p><h2>B</h2><p>y</p></article>] gives
    exactly two chapters, "A" and "B" with ordinals 1 and 2; the body
    of the first is the h1 heading and then [<p>x</p>], the body of the
    second the h2 heading and then [<p>y</p>]. *)
Theorem sample_document_two_chapters (c : Main.Constants) :
  Bs4.str sample_article =
    "<article><h1>A</h1><p>x</p><h2>B</h2><p>y</p></article>"%string /\
  Main.main_content sample_soup = Some sample_article /\
  Splitter.split (Bs4.children sample_article) =
    [ {| Splitter.title := "A"; Splitter.ordinal := 1;
         Splitter.body := ["<h1>A</h1>"; "<p>x</p>"]%string |};
      {| Splitter.title := "B"; Splitter.ordinal := 2;
         Splitter.body := ["<h2>B</h2>"; "<p>y</p>"]%string |} ] /\
  exists bk,
    Main.make_book c sample_soup = Py.Ok bk /\
    Epub.toc bk =
      [ Main.make_chapter "A" ["<h1>A</h1>"; "<p>x</p>"]%string 1;
        Main.make_chapter "B" ["<h2>B</h2>"; "<p>y</p>"]%string 2 ] /\
    Epub.html_items bk = Epub.toc bk.
Proof.
  split; [reflexivity|]. split; [reflexivity|]. split; [reflexivity|].
  eexists. split; [reflexivity|]. split; reflexivity.
Qed.

(** ** The traversal root *)

Lemma head_filter_first {A} (P : A -> Prop) `{!forall x, Decision (P x)} (l : list A) (a : A) :
  head (filter P l) = Some a ->
  exists pre post, l = pre ++ a :: post /\ P a /\ Forall (fun x => ~ P x) pre.
Proof.
  induction l as [|x l IH]; [discriminate|].
  destruct (decide (P x)) as [Hx|Hx].
  - rewrite filter_cons_True by done. intros [= ->].
    exists [], l. auto.
  - rewrite filter_cons_False by done. intros Hhd.
    destruct (IH Hhd) as (pre & post & -> & Ha & Hpre).
    exists (x :: pre), post. auto.
Qed.

Lemma head_filter_none {A} (P : A -> Prop) `{!forall x, Decision (P x)} (l : list A) :
  Forall (fun x => ~ P x) l -> head (filter P l) = None.
Proof.
  induction 1 as [|x l Hx _ IH]; [reflexivity|].
  by rewrite filter_cons_False.
Qed.

Lemma find_is_tag (nm : Py.str) (soup a : Bs4.PageElement) :
  Bs4.find nm soup = Some a -> Bs4.truthy (Some a) = true.
Proof.
  intros H. apply head_filter_first in H as (_ & _ & _ & Ha & _).
  by destruct a.
Qed.

(** C4. The children walked are those of the first [article] element
    in document order whenever the page has an [article] element
    anywhere, whatever that element contains; without one they are
    those of the body ([soup.body], which may itself be missing). *)
Theorem traversal_root (soup : Bs4.PageElement) :
  (forall d, d ∈ Bs4.descendants soup -> Bs4.is_named "article" d = true ->
     exists pre a post,
       Bs4.descendants soup = pre ++ a :: post /\
       Bs4.is_named "article" a = true /\
       Forall (fun x => Bs4.is_named "article" x <> true) pre /\
       Main.main_content soup = Some a) /\
  ((forall d, d ∈ Bs4.descendants soup -> Bs4.is_named "article" d <> true) ->
     Main.main_content soup = Bs4.body soup).
Proof.
  unfold Main.main_content. split.
  - intros d Hd Hnamed.
    destruct (Bs4.find "article" soup) as [a|] eqn:Hfind.
    + rewrite (find_is_tag _ _ _ Hfind). simpl.
      apply head_filter_first in Hfind as (pre & post & Heq & Ha & Hpre).
      exists pre, a, post. auto.
    + exfalso. unfold Bs4.find in Hfind.
      apply head_None in Hfind.
      assert (Hin : d ∈ filter (fun x => Bs4.is_named "article" x = true)
                                (Bs4.descendants soup))
        by (apply list_elem_of_filter; auto).
      rewrite Hfind in Hin. by apply elem_of_nil in Hin.
  - intros Hnone.
    assert (Hfind : Bs4.find "article" soup = None).
    { apply head_filter_none, Forall_forall. intros x Hx.
      apply Hnone, Hx. }
    by rewrite Hfind.
Qed.

(** ** The content of a chapter *)

Lemma length_repr_char (q c : ascii) : (1 <= String.length (Py.repr_char q c))%nat.
Proof.
  unfold Py.repr_char, Py.hex_escape.
  repeat match goal with |- context [if ?x then _ else _] => destruct x end;
    simpl; lia.
Qed.

Lemma length_repr_body (q : ascii) (s : Py.str) :
  (String.length s <= String.length (Py.repr_body q s))%nat.
Proof.
  induction s as [|c s IH]; simpl; [lia|].
  rewrite length_append. pose proof (length_repr_char q c). lia.
Qed.

Lemma length_repr (s : Py.str) :
  (String.length s + 2 <= String.length (Py.repr s))%nat.
Proof.
  unfold Py.repr. simpl. rewrite length_append. simpl.
  pose proof (length_repr_body (Py.repr_quote s) s). lia.
Qed.

Lemma length_join_repr (l : list Py.str) :
  (String.length (Py.concat l) <= String.length (Py.join ", " (map Py.repr l)))%nat.
Proof.
  induction l as [|s l IH]; [simpl; lia|].
  pose proof (length_repr s) as Hs.
  destruct l as [|s' l]; simpl in *; rewrite ?length_append in *; simpl in *; lia.
Qed.

Lemma length_str_of_list (l : list Py.str) :
  (String.length (Py.concat l) + 2 <= String.length (Py.str_of_list l))%nat.
Proof.
  unfold Py.str_of_list. rewrite !length_append. simpl.
  pose proof (length_join_repr l). lia.
Qed.

(** C10. The content stored in a chapter is the Python text of the
    list of buffered strings: an opening bracket, the quoted [repr] of
    each string separated by a comma and a space, a closing bracket --
    for the buffer of the sample's first chapter
    [['<h1>A</h1>', '<p>x</p>']] -- and never the strings simply put
    one after the other. *)
Theorem chapter_content_is_list_text
    (title : Py.str) (html_content : list Py.str) (idx : Z) :
  Epub.content (Main.make_chapter title html_content idx) =
    "[" +:+ Py.join ", " (map Py.repr html_content) +:+ "]" /\
  (forall s : Py.str,
      exists q, (q = Py.single_quote \/ q = Py.double_quote) /\
                Py.repr s = String q (Py.repr_body q s +:+ String q "")) /\
  Epub.content (Main.make_chapter title html_content idx) <> Py.concat html_content /\
  Epub.content (Main.make_chapter "A" ["<h1>A</h1>"; "<p>x</p>"]%string 1) =
    "['<h1>A</h1>', '<p>x</p>']"%string.
Proof.
  split; [reflexivity|]. split.
  { intros s. exists (Py.repr_quote s). split; [|reflexivity].
    unfold Py.repr_quote. destruct (_ && _); auto. }
  split; [|reflexivity].
  change (Epub.content (Main.make_chapter title html_content idx))
    with (Py.str_of_list html_content).
  intros H. apply (f_equal String.length) in H.
  pose proof (length_str_of_list html_content). lia.
Qed.

(** ** Validation *)

Lemma validate_html_file_ok (fs : Pathlib.FileSystem) (path p' : Pathlib.Path) :
  Main.validate_html_file fs path = Py.Ok p' <->
  p' = path /\ Pathlib.exists_ fs path = true /\
  Py.lower (Pathlib.suffix path) = ".html"%string.
Proof.
  unfold Main.validate_html_file.
  destruct (Pathlib.exists_ fs path); simpl.
  - destruct (String.eqb_spec (Py.lower (Pathlib.suffix path)) ".html") as [He|He]; simpl.
    + split; [intros [= <-]; auto | intros (-> & _ & _); reflexivity].
    + split; [discriminate | intros (_ & _ & Hs); contradiction].
  - split; [discriminate | intros (_ & Hf & _); discriminate].
Qed.

Section Script.

Variable BeautifulSoup : Py.str -> Bs4.PageElement.

(** When validation raises, the script ends with an exception and has
    neither opened nor parsed nor written anything. *)
Lemma script_stops_at_validation
    (environ : gmap string string) (fs : Pathlib.FileSystem) (arg : Py.str) (e : Py.exn) :
  Main.validate_html_file fs (Pathlib.of_str arg) = Py.Raise e ->
  exists e', Main.script BeautifulSoup environ fs (Some arg) = ([], Py.Raise e').
Proof.
  intros Hv. unfold Main.script, Main.parse_args. rewrite Hv.
  destruct (Main.load_constants environ); [|eauto].
  destruct e; eauto.
Qed.

End Script.

(** C9. [validate_html_file] raises [FileNotFoundError] for every path
    that does not exist, raises [ValueError] for every path that exists
    and whose suffix, lowercased, is not ".html", and returns a path
    exactly when it is the path it was given, that path exists and its
    suffix lowercases to ".html".  When it raises on the path of the
    command line, the script ends with an exception before it opens or
    parses anything. *)
Theorem validation_before_processing (fs : Pathlib.FileSystem) (path : Pathlib.Path) :
  (Pathlib.exists_ fs path = false ->
   Main.validate_html_file fs path =
     Py.Raise (Py.FileNotFoundError ("File not found: " +:+ Pathlib.str path))) /\
  (Pathlib.exists_ fs path = true ->
   Py.lower (Pathlib.suffix path) <> ".html"%string ->
   Main.validate_html_file fs path =
     Py.Raise (Py.ValueError
       ("File must have an .html extension, got: " +:+ Pathlib.suffix path))) /\
  (forall p' : Pathlib.Path,
      Main.validate_html_file fs path = Py.Ok p' <->
      p' = path /\ Pathlib.exists_ fs path = true /\
      Py.lower (Pathlib.suffix path) = ".html"%string) /\
  (forall (BeautifulSoup : Py.str -> Bs4.PageElement) (environ : gmap string string)
          (arg : Py.str) (e : Py.exn),
      Main.validate_html_file fs (Pathlib.of_str arg) = Py.Raise e ->
      exists e', Main.script BeautifulSoup environ fs (Some arg) = ([], Py.Raise e')).
Proof.
  split; [|split; [|split]].
  - intros Hf. unfold Main.validate_html_file. by rewrite Hf.
  - intros He Hs. unfold Main.validate_html_file. rewrite He. simpl.
    destruct (String.eqb_spec (Py.lower (Pathlib.suffix path)) ".html"); [contradiction|].
    reflexivity.
  - intros p'. apply validate_html_file_ok.
  - intros BS environ arg e. apply script_stops_at_validation.
Qed.

(** ** The theorems at work on concrete documents *)

(** [<p>intro</p><h1>A</h1><p>x</p>]: one heading, content before it,
    two chapters. *)
Lemma chapters_per_heading_witness :
  headings_followed [elem "p" "intro"; elem "h1" "A"; elem "p" "x"] = true /\
  length (Main.chapters
            (Main.split Epub.new_book [elem "p" "intro"; elem "h1" "A"; elem "p" "x"])) =
    (1 + 1)%nat.
Proof.
  split; [reflexivity|].
  exact (chapters_per_heading Epub.new_book
           [elem "p" "intro"; elem "h1" "A"; elem "p" "x"] eq_refl).
Defined.

Lemma chapters_in_document_order_witness :
  Main.main_content sample_soup = Some sample_article /\
  exists bk,
    Main.make_book sample_constants sample_soup = Py.Ok bk /\
    Epub.toc bk = map to_epub (Splitter.split (Bs4.children sample_article)) /\
    Epub.html_items bk = Epub.toc bk /\
    concat (map Splitter.body (Splitter.split (Bs4.children sample_article))) =
      ["<h1>A</h1>"; "<p>x</p>"; "<h2>B</h2>"; "<p>y</p>"]%string.
Proof.
  split; [reflexivity|].
  exact (chapters_in_document_order sample_constants sample_soup sample_article eq_refl).
Defined.

(** [<p>x</p>t<p>y</p>]: no heading, one chapter with both paragraphs. *)
Lemma no_heading_introduction_witness :
  count_headings [elem "p" "x"; Bs4.NavigableString "t"; elem "p" "y"] = 0%nat /\
  Main.chapters
    (Main.split Epub.new_book [elem "p" "x"; Bs4.NavigableString "t"; elem "p" "y"]) =
    [Main.make_chapter "Introduction" ["<p>x</p>"; "<p>y</p>"]%string 1].
Proof.
  split; [reflexivity|].
  exact (no_heading_introduction Epub.new_book
           [elem "p" "x"; Bs4.NavigableString "t"; elem "p" "y"] eq_refl).
Defined.

(** [<p>intro</p><h1>A</h1> <h2>B</h2>]: the chapter "A" flushed at the
    second heading is the second chapter and holds the first heading
    only. *)
Lemma consecutive_headings_flush_first_witness :
  Main.is_heading (elem "h1" "A") = true /\
  Main.is_heading (elem "h2" "B") = true /\
  forallb (fun el => negb (Main.has_name el)) [Bs4.NavigableString " "] = true /\
  Main.chapters
    (Main.loop_body
       (Main.main_loop (Main.initial Epub.new_book)
          ([elem "p" "intro"] ++ elem "h1" "A" :: [Bs4.NavigableString " "]))
       (elem "h2" "B")) =
    [Main.make_chapter "Introduction" ["<p>intro</p>"%string] 1;
     Main.make_chapter "A" ["<h1>A</h1>"%string] 2] /\
  Main.chapter_count
    (Main.loop_body
       (Main.main_loop (Main.initial Epub.new_book)
          ([elem "p" "intro"] ++ elem "h1" "A" :: [Bs4.NavigableString " "]))
       (elem "h2" "B")) = 3%Z.
Proof.
  split; [reflexivity|]. split; [reflexivity|]. split; [reflexivity|].
  destruct (consecutive_headings_flush_first Epub.new_book
              [elem "p" "intro"] [Bs4.NavigableString " "]
              (elem "h1" "A") (elem "h2" "B") eq_refl eq_refl eq_refl)
    as [(Hc & Hn & _) _].
  split; [exact Hc | exact Hn].
Defined.

(** A directory that holds [book.htm] and [BOOK.HTML]. *)
Lemma validation_before_processing_witness :
  let fs : Pathlib.FileSystem :=
    {[ Pathlib.of_str "book.htm" := Pathlib.File "<p>x</p>";
       Pathlib.of_str "BOOK.HTML" := Pathlib.File "<p>x</p>" ]} in
  Main.validate_html_file fs (Pathlib.of_str "missing.html") =
    Py.Raise (Py.FileNotFoundError "File not found: missing.html") /\
  Main.validate_html_file fs (Pathlib.of_str "book.htm") =
    Py.Raise (Py.ValueError "File must have an .html extension, got: .htm") /\
  Main.validate_html_file fs (Pathlib.of_str "BOOK.HTML") =
    Py.Ok (Pathlib.of_str "BOOK.HTML") /\
  exists e',
    Main.script (fun _ => sample_soup) ∅ fs (Some "book.htm"%string) = ([], Py.Raise e').
Proof.
  intros fs.
  split; [|split; [|split]].
  - apply (validation_before_processing fs (Pathlib.of_str "missing.html")).
    vm_compute. reflexivity.
  - apply (validation_before_processing fs (Pathlib.of_str "book.htm")).
    + vm_compute. reflexivity.
    + vm_compute. discriminate.
  - apply (validation_before_processing fs (Pathlib.of_str "BOOK.HTML")).
    split; [reflexivity|]. split; vm_compute; reflexivity.
  - destruct (validation_before_processing fs (Pathlib.of_str "book.htm"))
      as (_ & _ & _ & Hscript).
    apply (Hscript (fun _ => sample_soup) ∅ "book.htm"%string
             (Py.ValueError "File must have an .html extension, got: .htm")).
    vm_compute. reflexivity.
Defined.

(** A page with two [article] elements, and a page with none. *)
Lemma traversal_root_witness :
  (exists pre a post,
      Bs4.descendants
        (page [Bs4.Tag "div" [] [Bs4.Tag "article" [] []]; sample_article]) =
        pre ++ a :: post /\
      Bs4.is_named "article" a = true /\
      Forall (fun x => Bs4.is_named "article" x <> true) pre /\
      Main.main_content
        (page [Bs4.Tag "div" [] [Bs4.Tag "article" [] []]; sample_article]) = Some a) /\
  Main.main_content (page [elem "p" "x"]) = Bs4.body (page [elem "p" "x"]).
Proof.
  split.
  - destruct (traversal_root
                (page [Bs4.Tag "div" [] [Bs4.Tag "article" [] []]; sample_article]))
      as [Hfirst _].
    apply (Hfirst sample_article); [|reflexivity].
    vm_compute. repeat (try (left; reflexivity); right).
  - destruct (traversal_root (page [elem "p" "x"])) as [_ Hnone].
    apply Hnone.
    intros d Hd. vm_compute in Hd.
    repeat (apply elem_of_cons in Hd as [->|Hd]; [discriminate|]).
    by apply elem_of_nil in Hd.
Defined.

Example first_article_wins :
  Main.main_content
    (page [Bs4.Tag "div" [] [Bs4.Tag "article" [] []]; sample_article]) =
    Some (Bs4.Tag "article" [] []) /\
  Main.main_content (page [elem "p" "x"]) = Some (Bs4.Tag "body" [] [elem "p" "x"]) /\
  Main.main_content (Bs4.Tag "[document]" [] []) = None.
Proof. repeat split; reflexivity. Qed.

(** ** Further checks of the embedding on concrete values *)

Example repr_quotes :
  Py.repr "it's" = String Py.double_quote ("it's" +:+ String Py.double_quote "") /\
  Py.repr (String (Py.chr 10) "a\b") = "'\na\\b'"%string.
Proof. split; reflexivity. Qed.

Example str_of_int_10 :
  Py.str_of_int 10 = "10"%string /\ Py.str_of_int 0 = "0"%string.
Proof. split; reflexivity. Qed.

Example suffix_cases :
  Pathlib.suffix (Pathlib.of_str "/tmp/a.b/book.HTML") = ".HTML"%string /\
  Pathlib.suffix (Pathlib.of_str ".html") = ""%string /\
  Pathlib.suffix (Pathlib.of_str "book.") = ""%string /\
  Pathlib.suffix (Pathlib.of_str "book.tar.gz") = ".gz"%string.
Proof. repeat split; reflexivity. Qed.

Example with_suffix_epub :
  Pathlib.str <$> (match Pathlib.with_suffix ".epub" (Pathlib.of_str "/tmp//x/./book.html") with
                   | Py.Ok p => Some p
                   | Py.Raise _ => None
                   end) = Some "/tmp/x/book.epub"%string.
Proof. reflexivity. Qed.

Example decode_void_and_attrs :
  Bs4.str (Bs4.Tag "p" [("class", "a")]%string
             [Bs4.NavigableString "1 < 2"; Bs4.Tag "br" [] []]) =
  String "<" ("p class=" +:+ String Py.double_quote ("a" +:+ String Py.double_quote ">1 &lt; 2<br/></p>")).
Proof. reflexivity. Qed.

(** The whole script on the sample document. *)
Example script_on_sample :
  let environ : gmap string string :=
    {[ "BOOK_AUTHOR" := "An Author"; "BOOK_IDENTIFIER" := "id-1";
       "BOOK_LANGUAGE" := "en"; "BOOK_TITLE" := "A Book" ]}%string in
  let fs : Pathlib.FileSystem := {[ Pathlib.of_str "in/book.html" := Pathlib.File "..." ]} in
  exists bk,
    Main.script (fun _ => sample_soup) environ fs (Some "in/book.html"%string) =
      ([Main.EvOpen (Pathlib.of_str "in/book.html"); Main.EvParse "...";
        Main.EvWriteEpub "in/book.epub" bk;
        Main.EvPrint "EPUB created: in/book.epub"], Py.Ok tt) /\
    Epub.toc bk =
      [Main.make_chapter "A" ["<h1>A</h1>"; "<p>x</p>"]%string 1;
       Main.make_chapter "B" ["<h2>B</h2>"; "<p>y</p>"]%string 2].
Proof. eexists. split; vm_compute; reflexivity. Qed.

(** * Further properties of [main.py] *)

(** ** The split in closed form *)

Lemma tagged_strs_cons (el : Bs4.PageElement) (els : list Bs4.PageElement) :
  tagged_strs (el :: els) =
  (if Main.has_name el then [Bs4.str el] else []) ++ tagged_strs els.
Proof.
  unfold tagged_strs. destruct (Main.has_name el) eqn:Hn.
  - by rewrite filter_cons_True.
  - rewrite filter_cons_False by congruence. reflexivity.
Qed.

Lemma tagged_strs_app (l1 l2 : list Bs4.PageElement) :
  tagged_strs (l1 ++ l2) = tagged_strs l1 ++ tagged_strs l2.
Proof. unfold tagged_strs. by rewrite filter_app, map_app. Qed.

Lemma finish_run_sections (els : list Bs4.PageElement) (s : Splitter.state) :
  Splitter.finish (Splitter.run s els) =
  Splitter.emitted s ++
  match Splitter.current_buffer s ++ tagged_strs (sections els).1 with
  | [] => numbered_from (Splitter.next_ordinal s) (sections els).2
  | _ :: _ =>
      {| Splitter.title := Splitter.current_title s;
         Splitter.ordinal := Splitter.next_ordinal s;
         Splitter.body := Splitter.current_buffer s ++ tagged_strs (sections els).1 |}
      :: numbered_from (Splitter.next_ordinal s + 1) (sections els).2
  end.
Proof.
  revert s; induction els as [|el els IH]; intros s.
  - unfold Splitter.finish; simpl. rewrite app_nil_r.
    destruct (Splitter.current_buffer s); [by rewrite app_nil_r | reflexivity].
  - change (Splitter.run s (el :: els)) with (Splitter.run (Splitter.step s el) els).
    rewrite IH. simpl. destruct (sections els) as [intro secs]. simpl.
    destruct (Main.is_heading el) eqn:Hh; simpl.
    + rewrite step_heading by done. simpl. rewrite flush_buffer, app_nil_r. simpl.
      unfold Splitter.flush.
      destruct (Splitter.current_buffer s) as [|x buf] eqn:Hb; simpl.
      * reflexivity.
      * by rewrite <- app_assoc.
    + rewrite tagged_strs_cons.
      destruct (Main.has_name el) eqn:Hn.
      * rewrite step_content by done. simpl. by rewrite <- !app_assoc.
      * rewrite step_untagged by done. reflexivity.
Qed.

Lemma sections_intro (els : list Bs4.PageElement) :
  (sections els).1 = before_first_heading els.
Proof.
  induction els as [|el els IH]; [reflexivity|]. simpl.
  destruct (sections els) as [intro secs]. simpl in IH.
  destruct (Main.is_heading el); simpl; [reflexivity | by rewrite IH].
Qed.

Lemma sections_headings (els : list Bs4.PageElement) :
  map fst (sections els).2 = filter (fun el => Main.is_heading el = true) els.
Proof.
  induction els as [|el els IH]; [reflexivity|]. simpl.
  destruct (sections els) as [intro secs]. simpl in IH.
  destruct (Main.is_heading el) eqn:Hh; simpl.
  - rewrite filter_cons_True by done. by rewrite IH.
  - rewrite filter_cons_False by congruence. exact IH.
Qed.

(** The sections are the document: put back together they give the
    children in order, there is no heading before the first section,
    and every section is a heading followed by children that are not
    headings. *)
Lemma sections_partition (els : list Bs4.PageElement) :
  (sections els).1 ++ concat (map (fun hs => hs.1 :: hs.2) (sections els).2) = els /\
  Forall (fun el => Main.is_heading el = false) (sections els).1 /\
  Forall (fun hs => Main.is_heading hs.1 = true /\
                    Forall (fun el => Main.is_heading el = false) hs.2)
         (sections els).2.
Proof.
  induction els as [|el els (IHa & IHb & IHc)]; [by repeat constructor|].
  simpl. destruct (sections els) as [intro secs]. simpl in *.
  destruct (Main.is_heading el) eqn:Hh; simpl.
  - split; [by rewrite IHa|]. split; [constructor|].
    constructor; [by split | done].
  - split; [by rewrite IHa|]. split; [by constructor | done].
Qed.

Lemma splitter_sections (els : list Bs4.PageElement) :
  Splitter.split els = chapters_of_sections els.
Proof.
  unfold Splitter.split. rewrite finish_run_sections. simpl.
  unfold chapters_of_sections, introduction.
  destruct (tagged_strs (sections els).1); reflexivity.
Qed.

(** X1. The chapters the loop collects are, for every document: one
    chapter "Introduction" holding the tagged children before the first
    heading, when there is one; then, for every heading in order, one
    chapter titled with the text of the heading whose body is the
    heading followed by the tagged children up to the next heading;
    numbered 1, 2, ... in that order.  The sections put back together
    are the document, and a section holds no other heading than its
    first element. *)
Theorem split_is_sections (b : Epub.EpubBook) (els : list Bs4.PageElement) :
  Main.chapters (Main.split b els) = map to_epub (chapters_of_sections els) /\
  (sections els).1 ++ concat (map (fun hs => hs.1 :: hs.2) (sections els).2) = els /\
  Forall (fun el => Main.is_heading el = false) (sections els).1 /\
  Forall (fun hs => Main.is_heading hs.1 = true /\
                    Forall (fun el => Main.is_heading el = false) hs.2)
         (sections els).2.
Proof.
  split; [|apply sections_partition].
  rewrite split_refines. f_equal. apply splitter_sections.
Qed.

Lemma numbered_from_titles (n : Z) (secs : list (Bs4.PageElement * list Bs4.PageElement)) :
  map Splitter.title (numbered_from n secs) = map Bs4.get_text (map fst secs).
Proof.
  revert n; induction secs as [|[h rest] secs IH]; intros n; [reflexivity|].
  simpl. by rewrite IH.
Qed.

(** X2. The titles of the chapters, in order, are the texts of the
    h1/h2 children in document order, with "Introduction" in front
    exactly when a tagged child comes before the first heading. *)
Theorem chapter_titles (b : Epub.EpubBook) (els : list Bs4.PageElement) :
  map Epub.title (Main.chapters (Main.split b els)) =
  (if tagged_before_first_heading els then ["Introduction"%string] else []) ++
  map Bs4.get_text (filter (fun el => Main.is_heading el = true) els).
Proof.
  rewrite split_refines, splitter_sections.
  rewrite map_map. change (fun x => Epub.title (to_epub x)) with Splitter.title.
  unfold chapters_of_sections. rewrite map_app, numbered_from_titles, sections_headings.
  f_equal. unfold introduction, tagged_before_first_heading.
  rewrite sections_intro. unfold tagged_strs.
  induction (before_first_heading els) as [|el l IH]; [reflexivity|].
  simpl. destruct (Main.has_name el) eqn:Hn.
  - rewrite filter_cons_True by done. reflexivity.
  - rewrite filter_cons_False by congruence. exact IH.
Qed.

(** ** Cutting a document before a heading *)

Lemma sections_app_heading (l1 r : list Bs4.PageElement) (h : Bs4.PageElement) :
  Main.is_heading h = true ->
  sections (l1 ++ h :: r) =
  ((sections l1).1, (sections l1).2 ++ (sections (h :: r)).2).
Proof.
  intros Hh. induction l1 as [|el l1 IH].
  - simpl. rewrite Hh. by destruct (sections r).
  - simpl app. cbn [sections]. rewrite IH.
    destruct (sections l1) as [intro secs]. simpl.
    by destruct (Main.is_heading el).
Qed.

Lemma numbered_from_app (n : Z) (a c : list (Bs4.PageElement * list Bs4.PageElement)) :
  numbered_from n (a ++ c) =
  numbered_from n a ++ numbered_from (n + Z.of_nat (length a)) c.
Proof.
  revert n; induction a as [|[h rest] a IH]; intros n.
  - simpl. by rewrite Z.add_0_r.
  - cbn [numbered_from app length]. rewrite IH. f_equal. f_equal. f_equal. lia.
Qed.

Lemma numbered_from_shift (n k : Z) (secs : list (Bs4.PageElement * list Bs4.PageElement)) :
  numbered_from (n + k) secs = map (renumber k) (numbered_from n secs).
Proof.
  revert n; induction secs as [|[h rest] secs IH]; intros n; [reflexivity|].
  simpl. unfold renumber at 1. simpl. f_equal.
  rewrite <- IH. f_equal. lia.
Qed.

Lemma length_numbered_from (n : Z) (secs : list (Bs4.PageElement * list Bs4.PageElement)) :
  length (numbered_from n secs) = length secs.
Proof.
  revert n; induction secs as [|[h rest] secs IH]; intros n; [reflexivity|].
  simpl. by rewrite IH.
Qed.

Lemma splitter_at_heading (l1 r : list Bs4.PageElement) (h : Bs4.PageElement) :
  Main.is_heading h = true ->
  Splitter.split (l1 ++ h :: r) =
  Splitter.split l1 ++
  map (renumber (Z.of_nat (length (Splitter.split l1)))) (Splitter.split (h :: r)).
Proof.
  intros Hh. rewrite !splitter_sections. unfold chapters_of_sections.
  rewrite (sections_app_heading _ _ _ Hh). cbn [fst snd].
  assert (Hintro : (sections (h :: r)).1 = []).
  { simpl. rewrite Hh. by destruct (sections r). }
  rewrite Hintro. change (introduction []) with (@nil Splitter.Chapter).
  cbn [length app].
  set (intro := introduction (sections l1).1).
  rewrite numbered_from_app, <- app_assoc, <- numbered_from_shift.
  do 2 f_equal.
  rewrite length_app, length_numbered_from, Nat2Z.inj_add.
  f_equal. lia.
Qed.

(** X3. A document cut right before a heading: its chapters are the
    chapters of the first part, followed by the chapters of the second
    part moved up by the number of chapters of the first part.  Titles
    and contents are those of the two parts, one after the other. *)
Theorem split_before_heading
    (b : Epub.EpubBook) (l1 r : list Bs4.PageElement) (h : Bs4.PageElement) :
  Main.is_heading h = true ->
  Main.chapters (Main.split b (l1 ++ h :: r)) =
    Main.chapters (Main.split b l1) ++
    map to_epub
      (map (renumber (Z.of_nat (length (Main.chapters (Main.split b l1)))))
           (Splitter.split (h :: r))) /\
  map Epub.title (Main.chapters (Main.split b (l1 ++ h :: r))) =
    map Epub.title (Main.chapters (Main.split b l1)) ++
    map Epub.title (Main.chapters (Main.split b (h :: r))) /\
  map Epub.content (Main.chapters (Main.split b (l1 ++ h :: r))) =
    map Epub.content (Main.chapters (Main.split b l1)) ++
    map Epub.content (Main.chapters (Main.split b (h :: r))).
Proof.
  intros Hh.
  assert (Hsplit : Main.chapters (Main.split b (l1 ++ h :: r)) =
    Main.chapters (Main.split b l1) ++
    map to_epub
      (map (renumber (Z.of_nat (length (Main.chapters (Main.split b l1)))))
           (Splitter.split (h :: r)))).
  { rewrite !split_refines, length_map, (splitter_at_heading _ _ _ Hh).
    by rewrite map_app. }
  split; [exact Hsplit|].
  rewrite Hsplit, !map_app, (split_refines b (h :: r)), !map_map.
  split; reflexivity.
Qed.

(** ** How many chapters *)

Lemma length_concat_nonempty {A} (l : list (list A)) :
  Forall (fun x => x <> []) l -> (length l <= length (concat l))%nat.
Proof.
  induction 1 as [|x l Hx _ IH]; [simpl; lia|].
  simpl. rewrite length_app. destruct x; [done|]. simpl. lia.
Qed.

(** X4. There are never more chapters than tagged children, and the
    book has no chapter at all exactly when no child of the root is
    tagged. *)
Theorem chapters_and_tagged_children (b : Epub.EpubBook) (els : list Bs4.PageElement) :
  (length (Main.chapters (Main.split b els)) <= length (tagged_strs els))%nat /\
  (Main.chapters (Main.split b els) = [] <-> tagged_strs els = []).
Proof.
  rewrite split_refines.
  pose proof (split_bodies els) as Hb.
  pose proof (split_bodies_nonempty els) as Hne.
  assert (Hlen : (length (Splitter.split els) <= length (tagged_strs els))%nat).
  { rewrite <- Hb, <- (length_map Splitter.body).
    apply length_concat_nonempty.
    apply Forall_fmap. exact Hne. }
  split; [by rewrite length_map|].
  split.
  - intros Hnil. apply map_eq_nil in Hnil. rewrite <- Hb, Hnil. reflexivity.
  - intros Hnil. rewrite Hnil in Hlen.
    destruct (Splitter.split els); [reflexivity | simpl in Hlen; lia].
Qed.

(** ** The path of the output *)

Lemma append_assoc (s t u : string) : (s +:+ t) +:+ u = s +:+ (t +:+ u).
Proof.
  induction s as [|c s IH]; [reflexivity|].
  change (String c ((s +:+ t) +:+ u) = String c (s +:+ (t +:+ u))).
  by rewrite IH.
Qed.

Lemma rfind_absent (c : ascii) (s : Py.str) :
  Py.contains c s = false -> Pathlib.rfind c s = (-1)%Z.
Proof.
  induction s as [|d s IH]; [reflexivity|]. simpl.
  intros H. apply orb_false_elim in H as [Hd Hs].
  rewrite (IH Hs). simpl. rewrite Ascii.eqb_sym, Hd. reflexivity.
Qed.

Lemma rfind_last (c : ascii) (pre post : Py.str) :
  Py.contains c post = false ->
  Pathlib.rfind c (pre +:+ String c post) = Z.of_nat (String.length pre).
Proof.
  intros Hpost. induction pre as [|d pre IH].
  - change (EmptyString +:+ String c post) with (String c post).
    simpl. rewrite (rfind_absent _ _ Hpost). simpl. by rewrite Ascii.eqb_refl.
  - change (String d pre +:+ String c post) with (String d (pre +:+ String c post)).
    simpl Pathlib.rfind. rewrite IH.
    destruct (0 <=? Z.of_nat (String.length pre))%Z eqn:Hle.
    + simpl String.length. lia.
    + apply Z.leb_gt in Hle. lia.
Qed.

Lemma rfind_found (c : ascii) (s : Py.str) :
  (0 <= Pathlib.rfind c s)%Z ->
  exists pre post,
    s = pre +:+ String c post /\
    Pathlib.rfind c s = Z.of_nat (String.length pre) /\
    Py.contains c post = false.
Proof.
  induction s as [|d s IH]; [simpl; lia|].
  cbn [Pathlib.rfind].
  destruct (0 <=? Pathlib.rfind c s)%Z eqn:Hle.
  - intros _. apply Z.leb_le in Hle.
    destruct (IH Hle) as (pre & post & -> & Hr & Hpost).
    exists (String d pre), post. repeat split; [|done].
    rewrite Hr. cbn [String.length]. lia.
  - destruct (Ascii.eqb_spec d c) as [->|Hne]; [|lia].
    intros _. exists EmptyString, s. repeat split.
    apply Z.leb_gt in Hle.
    clear IH. induction s as [|e s IHs]; [reflexivity|].
    cbn [Pathlib.rfind] in Hle. simpl.
    destruct (0 <=? Pathlib.rfind c s)%Z eqn:Hle'.
    + apply Z.leb_le in Hle'. lia.
    + destruct (Ascii.eqb_spec e c) as [->|Hne]; [lia|].
      rewrite IHs by (apply Z.leb_gt in Hle'; lia).
      destruct (Ascii.eqb_spec c e); [congruence | reflexivity].
Qed.

Lemma substring_all (s : Py.str) : String.substring 0 (String.length s) s = s.
Proof. induction s as [|c s IH]; [reflexivity|]. simpl. by rewrite IH. Qed.

Lemma substring_skip (pre x : Py.str) (n : nat) :
  String.substring (String.length pre) n (pre +:+ x) = String.substring 0 n x.
Proof. induction pre as [|c pre IH]; [reflexivity|]. exact IH. Qed.

Lemma substring_take (pre x : Py.str) :
  String.substring 0 (String.length pre) (pre +:+ x) = pre.
Proof.
  induction pre as [|c pre IH].
  - by destruct x.
  - change (String c pre +:+ x) with (String c (pre +:+ x)).
    simpl. by rewrite IH.
Qed.

Lemma slice_from_app (pre x : Py.str) :
  Pathlib.slice_from (Z.of_nat (String.length pre)) (pre +:+ x) = x.
Proof.
  unfold Pathlib.slice_from. rewrite Nat2Z.id, length_append.
  replace (String.length pre + String.length x - String.length pre)%nat
    with (String.length x) by lia.
  rewrite substring_skip. apply substring_all.
Qed.

Lemma drop_last_app (pre x : Py.str) :
  Pathlib.drop_last (String.length x) (pre +:+ x) = pre.
Proof.
  unfold Pathlib.drop_last. rewrite length_append.
  replace (String.length pre + String.length x - String.length x)%nat
    with (String.length pre) by lia.
  apply substring_take.
Qed.

(** A suffix that is not empty is a dot and an extension without dot,
    after a stem that is not empty. *)
Lemma suffix_inv (p : Pathlib.Path) :
  Pathlib.suffix p <> EmptyString ->
  exists stem ext,
    Pathlib.name p = stem +:+ String "." ext /\
    Pathlib.suffix p = String "." ext /\
    stem <> EmptyString /\ ext <> EmptyString /\ Py.contains "." ext = false.
Proof.
  unfold Pathlib.suffix.
  destruct (_ && _) eqn:Hc; [|done]. intros _.
  apply andb_prop in Hc as [Hlo Hhi].
  apply Z.ltb_lt in Hlo. apply Z.ltb_lt in Hhi.
  destruct (rfind_found "." (Pathlib.name p)) as (stem & ext & Hnm & Hr & Hext); [lia|].
  rewrite Hr in *. rewrite Hnm in *. rewrite length_append in Hhi.
  cbn [String.length] in Hhi.
  exists stem, ext. rewrite slice_from_app.
  repeat split; try done.
  - intros ->. simpl in Hlo. lia.
  - intros ->. simpl in Hhi. lia.
Qed.

Lemma suffix_of_name (p : Pathlib.Path) (stem ext : Py.str) :
  Pathlib.name p = stem +:+ String "." ext ->
  stem <> EmptyString -> ext <> EmptyString -> Py.contains "." ext = false ->
  Pathlib.suffix p = String "." ext.
Proof.
  intros Hnm Hstem Hext Hdot. unfold Pathlib.suffix.
  rewrite Hnm, (rfind_last _ _ _ Hdot), length_append. cbn [String.length].
  assert (0 < String.length stem)%nat by (destruct stem; [done | simpl; lia]).
  assert (0 < String.length ext)%nat by (destruct ext; [done | simpl; lia]).
  destruct (_ && _) eqn:Hc.
  - apply slice_from_app.
  - apply andb_false_iff in Hc as [Hc|Hc]; apply Z.ltb_ge in Hc; lia.
Qed.

Lemma length_lower (s : Py.str) : String.length (Py.lower s) = String.length s.
Proof. induction s as [|c s IH]; [reflexivity|]. simpl. by rewrite IH. Qed.

Lemma with_suffix_html (p : Pathlib.Path) :
  Py.lower (Pathlib.suffix p) = ".html"%string ->
  exists stem ext,
    Pathlib.name p = stem +:+ String "." ext /\
    Pathlib.suffix p = String "." ext /\
    Pathlib.with_suffix ".epub" p =
      Py.Ok {| Pathlib.root := Pathlib.root p;
               Pathlib.parts := removelast (Pathlib.parts p) ++ [stem +:+ ".epub"] |} /\
    Pathlib.suffix
      {| Pathlib.root := Pathlib.root p;
         Pathlib.parts := removelast (Pathlib.parts p) ++ [stem +:+ ".epub"] |} =
      ".epub"%string.
Proof.
  intros Hhtml.
  assert (Hne : Pathlib.suffix p <> EmptyString).
  { intros He. rewrite He in Hhtml. discriminate. }
  destruct (suffix_inv p Hne) as (stem & ext & Hnm & Hsfx & Hstem & Hext & Hdot).
  exists stem, ext. split; [exact Hnm|]. split; [exact Hsfx|]. split.
  - unfold Pathlib.with_suffix.
    destruct (String.eqb_spec (Pathlib.name p) "") as [He|_].
    { rewrite Hnm in He. destruct stem; [done | discriminate]. }
    destruct (String.eqb_spec (Pathlib.suffix p) "") as [He|_]; [done|].
    rewrite Hsfx, Hnm.
    change (stem +:+ String "." ext) with (stem +:+ (String "." ext)).
    by rewrite drop_last_app.
  - apply (suffix_of_name _ stem "epub"); try done.
    unfold Pathlib.name. simpl. apply last_last.
Qed.


(** X5. For a path whose suffix lowercases to ".html" -- every path
    that passes validation -- the output path exists ([with_suffix]
    does not raise), lies in the same directory, has the name of the
    input with its suffix replaced by ".epub", has suffix ".epub", and
    is never the input path itself. *)
Theorem output_path_beside_input (p : Pathlib.Path) :
  Py.lower (Pathlib.suffix p) = ".html"%string ->
  exists out stem,
    Pathlib.with_suffix ".epub" p = Py.Ok out /\
    Pathlib.name p = stem +:+ Pathlib.suffix p /\
    Pathlib.name out = stem +:+ ".epub" /\
    Pathlib.root out = Pathlib.root p /\
    removelast (Pathlib.parts out) = removelast (Pathlib.parts p) /\
    Pathlib.suffix out = ".epub"%string /\
    out <> p.
Proof.
  intros Hhtml.
  destruct (with_suffix_html p Hhtml) as (stem & ext & Hnm & Hsfx & Hw & Hout).
  eexists; exists stem. split; [exact Hw|].
  split; [by rewrite Hsfx|].
  split; [unfold Pathlib.name; simpl; apply last_last|].
  split; [reflexivity|].
  split; [simpl; apply removelast_last|].
  split; [exact Hout|].
  intros Heq. rewrite Heq in Hout. rewrite Hout in Hhtml. discriminate.
Qed.

Lemma output_path_beside_input_witness :
  Py.lower (Pathlib.suffix (Pathlib.of_str "/tmp/my.book.HTML")) = ".html"%string /\
  exists out stem,
    Pathlib.with_suffix ".epub" (Pathlib.of_str "/tmp/my.book.HTML") = Py.Ok out /\
    Pathlib.name (Pathlib.of_str "/tmp/my.book.HTML") =
      stem +:+ Pathlib.suffix (Pathlib.of_str "/tmp/my.book.HTML") /\
    Pathlib.name out = stem +:+ ".epub" /\
    Pathlib.root out = Pathlib.root (Pathlib.of_str "/tmp/my.book.HTML") /\
    removelast (Pathlib.parts out) =
      removelast (Pathlib.parts (Pathlib.of_str "/tmp/my.book.HTML")) /\
    Pathlib.suffix out = ".epub"%string /\
    out <> Pathlib.of_str "/tmp/my.book.HTML".
Proof.
  split; [reflexivity|].
  exact (output_path_beside_input (Pathlib.of_str "/tmp/my.book.HTML") eq_refl).
Defined.

(** ** Making the book *)

Lemma find_some (nm : Py.str) (soup a : Bs4.PageElement) :
  Bs4.find nm soup = Some a ->
  a ∈ Bs4.descendants soup /\ Bs4.is_named nm a = true.
Proof.
  intros H. apply head_filter_first in H as (pre & post & Hd & Ha & _).
  split; [|exact Ha]. rewrite Hd. apply elem_of_app. right. apply elem_of_cons. by left.
Qed.

Lemma find_none (nm : Py.str) (soup : Bs4.PageElement) :
  Bs4.find nm soup = None <->
  forall d, d ∈ Bs4.descendants soup -> Bs4.is_named nm d <> true.
Proof.
  split.
  - intros H d Hd Hn. unfold Bs4.find in H. apply head_None in H.
    assert (Hin : d ∈ filter (fun x => Bs4.is_named nm x = true) (Bs4.descendants soup))
      by (apply list_elem_of_filter; auto).
    rewrite H in Hin. by apply elem_of_nil in Hin.
  - intros H. apply head_filter_none, Forall_forall. exact H.
Qed.

Lemma main_content_none (soup : Bs4.PageElement) :
  Main.main_content soup = None <->
  Bs4.find "article" soup = None /\ Bs4.find "body" soup = None.
Proof.
  unfold Main.main_content, Bs4.body.
  destruct (Bs4.find "article" soup) as [a|] eqn:Ha.
  - rewrite (find_is_tag _ _ _ Ha). simpl. split; [discriminate | intros [? _]; discriminate].
  - simpl. tauto.
Qed.

(** X6. [make_book] raises exactly when the page has neither an
    [article] nor a [body] element anywhere, and what it raises then is
    the [AttributeError] of taking [.children] of [None]; on every
    other page it returns a book. *)
Theorem make_book_needs_a_root (c : Main.Constants) (soup : Bs4.PageElement) :
  ((exists e, Main.make_book c soup = Py.Raise e) <->
   (forall d, d ∈ Bs4.descendants soup ->
      Bs4.is_named "article" d <> true /\ Bs4.is_named "body" d <> true)) /\
  (forall e, Main.make_book c soup = Py.Raise e ->
     e = Py.AttributeError "'NoneType' object has no attribute 'children'") /\
  ((exists bk, Main.make_book c soup = Py.Ok bk) <->
   (exists d, d ∈ Bs4.descendants soup /\
      (Bs4.is_named "article" d = true \/ Bs4.is_named "body" d = true))).
Proof.
  unfold Main.make_book.
  destruct (Main.main_content soup) as [root|] eqn:Hroot.
  - assert (Hex : exists d, d ∈ Bs4.descendants soup /\
              (Bs4.is_named "article" d = true \/ Bs4.is_named "body" d = true)).
    { unfold Main.main_content, Bs4.body in Hroot.
      destruct (Bs4.find "article" soup) as [a|] eqn:Ha.
      - apply find_some in Ha as [? ?]. eauto.
      - simpl in Hroot. apply find_some in Hroot as [? ?]. eauto. }
    split; [|split].
    + split; [intros [e He]; discriminate|].
      intros Hnone. destruct Hex as (d & Hd & [Hn|Hn]); destruct (Hnone d Hd); done.
    + discriminate.
    + split; eauto.
  - apply main_content_none in Hroot as [Ha Hb].
    rewrite find_none in Ha. rewrite find_none in Hb.
    split; [|split].
    + split; [intros _ d Hd; split; auto | eauto].
    + by intros e [= <-].
    + split; [intros [bk ?]; discriminate|].
      intros (d & Hd & [Hn|Hn]); [destruct (Ha d Hd Hn) | destruct (Hb d Hd Hn)].
Qed.

Lemma add_items_metadata (l : list Epub.Item) (b : Epub.EpubBook) :
  let b' := fold_left Epub.add_item l b in
  Epub.identifier b' = Epub.identifier b /\
  Epub.book_title b' = Epub.book_title b /\
  Epub.language b' = Epub.language b /\
  Epub.authors b' = Epub.authors b /\
  Epub.toc b' = Epub.toc b.
Proof.
  revert b; induction l as [|i l IH]; intros b; [done|].
  simpl. destruct (IH (Epub.add_item b i)) as (-> & -> & -> & -> & ->). done.
Qed.

Lemma split_metadata (b : Epub.EpubBook) (els : list Bs4.PageElement) :
  let b' := Main.book (Main.split b els) in
  Epub.identifier b' = Epub.identifier b /\
  Epub.book_title b' = Epub.book_title b /\
  Epub.language b' = Epub.language b /\
  Epub.authors b' = Epub.authors b.
Proof.
  unfold Main.split. rewrite initial_locals_of, main_loop_locals_of.
  set (s := Splitter.run Splitter.start els).
  pose proof (add_items_metadata
                (map (fun c => Epub.ItemHtml (to_epub c)) (Splitter.emitted s)) b) as Hm.
  unfold Main.add_last_chapter, locals_of. simpl in *.
  destruct (Py.truthy_list (Splitter.current_buffer s)); simpl; tauto.
Qed.

(** X7. A book that [make_book] returns carries the four constants as
    its identifier, title, language and only author, and its items are
    the chapters of its table of contents in order, then the NCX, the
    navigation document and the stylesheet [style/nav.css]. *)
Theorem make_book_contents (c : Main.Constants) (soup : Bs4.PageElement) (bk : Epub.EpubBook) :
  Main.make_book c soup = Py.Ok bk ->
  Epub.identifier bk = Main.BOOK_IDENTIFIER c /\
  Epub.book_title bk = Main.BOOK_TITLE c /\
  Epub.language bk = Main.BOOK_LANGUAGE c /\
  Epub.authors bk = [Main.BOOK_AUTHOR c] /\
  Epub.items bk =
    map Epub.ItemHtml (Epub.toc bk) ++
    [Epub.EpubNcx; Epub.EpubNav;
     Epub.EpubItem "style_nav" "style/nav.css" "text/css"
       "BODY { font-family: Gentium, Georgia, serif; }"].
Proof.
  unfold Main.make_book.
  destruct (Main.main_content soup) as [root|]; [|discriminate].
  intros [= <-]. simpl.
  destruct (split_metadata (Main.titled_book c) (Bs4.children root))
    as (-> & -> & -> & ->).
  rewrite split_items. simpl. rewrite <- !app_assoc. done.
Qed.

Lemma make_book_contents_witness :
  exists bk,
    Main.make_book sample_constants sample_soup = Py.Ok bk /\
    Epub.identifier bk = "id-1"%string /\
    Epub.book_title bk = "A Book"%string /\
    Epub.language bk = "en"%string /\
    Epub.authors bk = ["An Author"%string] /\
    Epub.items bk =
      map Epub.ItemHtml (Epub.toc bk) ++
      [Epub.EpubNcx; Epub.EpubNav;
       Epub.EpubItem "style_nav" "style/nav.css" "text/css"
         "BODY { font-family: Gentium, Georgia, serif; }"].
Proof.
  eexists. split; [reflexivity|].
  exact (make_book_contents sample_constants sample_soup _ eq_refl).
Defined.

(** ** The constants and the arguments *)

Lemma load_constants_cases (environ : gmap string string) :
  Main.load_constants environ =
  match environ !! "BOOK_AUTHOR"%string with
  | None => Py.Raise (Py.KeyError "BOOK_AUTHOR")
  | Some a =>
      match environ !! "BOOK_IDENTIFIER"%string with
      | None => Py.Raise (Py.KeyError "BOOK_IDENTIFIER")
      | Some i =>
          match environ !! "BOOK_LANGUAGE"%string with
          | None => Py.Raise (Py.KeyError "BOOK_LANGUAGE")
          | Some l =>
              match environ !! "BOOK_TITLE"%string with
              | None => Py.Raise (Py.KeyError "BOOK_TITLE")
              | Some t =>
                  Py.Ok {| Main.BOOK_AUTHOR := a; Main.BOOK_IDENTIFIER := i;
                           Main.BOOK_LANGUAGE := l; Main.BOOK_TITLE := t |}
              end
          end
      end
  end.
Proof.
  unfold Main.load_constants, Main.environ_get, Py.str.
  destruct (environ !! "BOOK_AUTHOR"%string); [|reflexivity].
  destruct (environ !! "BOOK_IDENTIFIER"%string); [|reflexivity].
  destruct (environ !! "BOOK_LANGUAGE"%string); [|reflexivity].
  destruct (environ !! "BOOK_TITLE"%string); reflexivity.
Qed.

Lemma first_missing_unique (environ : gmap string string)
    (pre pre' post post' : list string) (k k' : string) :
  pre ++ k :: post = pre' ++ k' :: post' ->
  Forall (fun x => is_Some (environ !! x)) pre -> environ !! k = None ->
  Forall (fun x => is_Some (environ !! x)) pre' -> environ !! k' = None ->
  k = k'.
Proof.
  revert pre'; induction pre as [|x pre IH]; intros [|x' pre'] Heq Hp Hk Hp' Hk';
    simplify_eq/=.
  - reflexivity.
  - inversion Hp' as [|? ? [v Hv] _]; subst. congruence.
  - inversion Hp as [|? ? [v Hv] _]; subst. congruence.
  - inversion Hp; inversion Hp'; subst. eauto.
Qed.

(** X8. The constants load exactly when the four variables are set,
    each constant being the value of its variable; otherwise what is
    raised is the [KeyError] of the first of BOOK_AUTHOR,
    BOOK_IDENTIFIER, BOOK_LANGUAGE, BOOK_TITLE that is not set. *)
Theorem load_constants_first_missing (environ : gmap string string) :
  (forall c : Main.Constants,
     Main.load_constants environ = Py.Ok c <->
     environ !! "BOOK_AUTHOR"%string = Some (Main.BOOK_AUTHOR c) /\
     environ !! "BOOK_IDENTIFIER"%string = Some (Main.BOOK_IDENTIFIER c) /\
     environ !! "BOOK_LANGUAGE"%string = Some (Main.BOOK_LANGUAGE c) /\
     environ !! "BOOK_TITLE"%string = Some (Main.BOOK_TITLE c)) /\
  (forall e : Py.exn,
     Main.load_constants environ = Py.Raise e <->
     exists pre k post,
       constant_names = pre ++ k :: post /\
       Forall (fun k' => is_Some (environ !! k')) pre /\
       environ !! k = None /\
       e = Py.KeyError k).
Proof.
  rewrite load_constants_cases. unfold Py.str in *. split.
  - intros [ca ci cl ct]. simpl.
    destruct (environ !! "BOOK_AUTHOR"%string);
      [|split; [discriminate | intros (? & ? & ? & ?); congruence]].
    destruct (environ !! "BOOK_IDENTIFIER"%string);
      [|split; [discriminate | intros (? & ? & ? & ?); congruence]].
    destruct (environ !! "BOOK_LANGUAGE"%string);
      [|split; [discriminate | intros (? & ? & ? & ?); congruence]].
    destruct (environ !! "BOOK_TITLE"%string);
      [|split; [discriminate | intros (? & ? & ? & ?); congruence]].
    split; [intros [= <- <- <- <-]; done | intros (? & ? & ? & ?); congruence].
  - intros e.
    assert (Huniq : forall pre k post k0 pre0 post0,
               constant_names = pre0 ++ k0 :: post0 ->
               Forall (fun k' => is_Some (environ !! k')) pre0 -> environ !! k0 = None ->
               constant_names = pre ++ k :: post ->
               Forall (fun k' => is_Some (environ !! k')) pre -> environ !! k = None ->
               @Py.Raise Main.Constants (Py.KeyError k0) = Py.Raise (Py.KeyError k)).
    { intros pre k post k0 pre0 post0 H0 Hp0 Hk0 H1 Hp1 Hk1. do 2 f_equal.
      rewrite H0 in H1. eapply first_missing_unique; eauto. }
    destruct (environ !! "BOOK_AUTHOR"%string) as [a|] eqn:Ha;
      [destruct (environ !! "BOOK_IDENTIFIER"%string) as [i|] eqn:Hi;
       [destruct (environ !! "BOOK_LANGUAGE"%string) as [l|] eqn:Hl;
        [destruct (environ !! "BOOK_TITLE"%string) as [t|] eqn:Ht|]|]|].
    + split; [discriminate|].
      intros (pre & k & post & Hnames & Hpre & Hk & _). exfalso.
      unfold constant_names in Hnames.
      destruct pre as [|? [|? [|? [|? [|? ?]]]]]; simplify_eq/=; congruence.
    + split.
      * intros [= <-].
        exists ["BOOK_AUTHOR"; "BOOK_IDENTIFIER"; "BOOK_LANGUAGE"]%string,
          "BOOK_TITLE"%string, []. repeat split; [|done].
        repeat constructor; eauto.
      * intros (pre & k & post & Hnames & Hpre & Hk & ->).
        apply (Huniq pre k post _ ["BOOK_AUTHOR"; "BOOK_IDENTIFIER"; "BOOK_LANGUAGE"]%string []);
          try done. repeat constructor; eauto.
    + split.
      * intros [= <-].
        exists ["BOOK_AUTHOR"; "BOOK_IDENTIFIER"]%string,
          "BOOK_LANGUAGE"%string, ["BOOK_TITLE"%string]. repeat split; [|done].
        repeat constructor; eauto.
      * intros (pre & k & post & Hnames & Hpre & Hk & ->).
        apply (Huniq pre k post _ ["BOOK_AUTHOR"; "BOOK_IDENTIFIER"]%string ["BOOK_TITLE"%string]);
          try done. repeat constructor; eauto.
    + split.
      * intros [= <-].
        exists ["BOOK_AUTHOR"%string], "BOOK_IDENTIFIER"%string,
          ["BOOK_LANGUAGE"; "BOOK_TITLE"]%string. repeat split; [|done].
        repeat constructor; eauto.
      * intros (pre & k & post & Hnames & Hpre & Hk & ->).
        apply (Huniq pre k post _ ["BOOK_AUTHOR"%string] ["BOOK_LANGUAGE"; "BOOK_TITLE"]%string);
          try done. repeat constructor; eauto.
    + split.
      * intros [= <-].
        exists [], "BOOK_AUTHOR"%string,
          ["BOOK_IDENTIFIER"; "BOOK_LANGUAGE"; "BOOK_TITLE"]%string. repeat split; done.
      * intros (pre & k & post & Hnames & Hpre & Hk & ->).
        apply (Huniq pre k post _ [] ["BOOK_IDENTIFIER"; "BOOK_LANGUAGE"; "BOOK_TITLE"]%string);
          try done.
Qed.


(** ** The script from top to bottom *)

Section ScriptFacts.

Variable BeautifulSoup : Py.str -> Bs4.PageElement.




End ScriptFacts.




(** ** What a chapter keeps of its arguments *)

Lemma unrepr_repr_char (q c : ascii) (t : Py.str) :
  q = Py.single_quote \/ q = Py.double_quote ->
  unrepr_body q (Py.repr_char q c +:+ t) = cons_fst c (unrepr_body q t).
Proof.
  intros [-> | ->];
    destruct c as [[] [] [] [] [] [] [] []]; reflexivity.
Qed.

Lemma unrepr_repr_body (q : ascii) (s rest : Py.str) :
  q = Py.single_quote \/ q = Py.double_quote ->
  unrepr_body q (Py.repr_body q s +:+ String q rest) = Some (s, rest).
Proof.
  intros Hq. induction s as [|c s IH].
  - change (Py.repr_body q "" +:+ String q rest) with (String q rest).
    simpl. by rewrite Ascii.eqb_refl.
  - change (Py.repr_body q (String c s))
      with (Py.repr_char q c +:+ Py.repr_body q s).
    rewrite append_assoc, (unrepr_repr_char _ _ _ Hq), IH. reflexivity.
Qed.

Lemma repr_quoted (s rest : Py.str) :
  exists q, (q = Py.single_quote \/ q = Py.double_quote) /\
            Py.repr s +:+ rest = String q (Py.repr_body q s +:+ String q rest).
Proof.
  exists (Py.repr_quote s). split.
  - unfold Py.repr_quote. destruct (_ && _); auto.
  - unfold Py.repr.
    change (String ?q ?x +:+ rest) with (String q (x +:+ rest)).
    by rewrite append_assoc.
Qed.

(** Two texts that start with a [repr] start with the [repr] of the
    same string and go on the same way. *)
Lemma repr_app_inj (s1 s2 r1 r2 : Py.str) :
  Py.repr s1 +:+ r1 = Py.repr s2 +:+ r2 -> s1 = s2 /\ r1 = r2.
Proof.
  intros H.
  destruct (repr_quoted s1 r1) as (q1 & Hq1 & E1).
  destruct (repr_quoted s2 r2) as (q2 & Hq2 & E2).
  rewrite E1, E2 in H. injection H as -> H.
  apply (f_equal (unrepr_body q2)) in H.
  rewrite !unrepr_repr_body in H by done.
  by injection H as -> ->.
Qed.

Lemma join_repr_cons (s : Py.str) (l : list Py.str) (rest : Py.str) :
  Py.join ", " (map Py.repr (s :: l)) +:+ rest =
  Py.repr s +:+
    match l with
    | [] => rest
    | _ :: _ => ", " +:+ (Py.join ", " (map Py.repr l) +:+ rest)
    end.
Proof.
  destruct l as [|s' l]; [reflexivity|].
  change (Py.join ", " (map Py.repr (s :: s' :: l)))
    with (Py.repr s +:+ ", " +:+ Py.join ", " (map Py.repr (s' :: l))).
  by rewrite !append_assoc.
Qed.

Lemma repr_not_bracket (s rest : Py.str) : Py.repr s +:+ rest <> "]"%string.
Proof.
  destruct (repr_quoted s rest) as (q & [-> | ->] & ->); discriminate.
Qed.

Lemma join_repr_inj (l1 l2 : list Py.str) :
  Py.join ", " (map Py.repr l1) +:+ "]" = Py.join ", " (map Py.repr l2) +:+ "]" ->
  l1 = l2.
Proof.
  revert l2; induction l1 as [|s1 l1 IH]; intros [|s2 l2] H.
  - reflexivity.
  - rewrite join_repr_cons in H. symmetry in H. by apply repr_not_bracket in H.
  - rewrite join_repr_cons in H. by apply repr_not_bracket in H.
  - rewrite !join_repr_cons in H. apply repr_app_inj in H as [-> H].
    f_equal. destruct l1 as [|a l1], l2 as [|c l2].
    + reflexivity.
    + discriminate.
    + discriminate.
    + apply IH. by injection H.
Qed.

Lemma str_of_list_inj (l1 l2 : list Py.str) :
  Py.str_of_list l1 = Py.str_of_list l2 -> l1 = l2.
Proof.
  unfold Py.str_of_list. intros H.
  apply (inj (String.app "[")) in H. by apply join_repr_inj.
Qed.

(** X12. A chapter keeps all of its three arguments: two calls of
    [make_chapter] give the same chapter only for the same title, the
    same list of strings and the same index.  In particular the
    content, though it is the text of a Python list and not markup,
    determines the list of serialized nodes it was made from, and the
    file name determines the index. *)
Theorem make_chapter_inj
    (title1 title2 : Py.str) (content1 content2 : list Py.str) (idx1 idx2 : Z) :
  (Main.make_chapter title1 content1 idx1 = Main.make_chapter title2 content2 idx2 <->
   title1 = title2 /\ content1 = content2 /\ idx1 = idx2) /\
  (Epub.content (Main.make_chapter title1 content1 idx1) =
   Epub.content (Main.make_chapter title2 content2 idx2) <-> content1 = content2) /\
  (Epub.file_name (Main.make_chapter title1 content1 idx1) =
   Epub.file_name (Main.make_chapter title2 content2 idx2) <-> idx1 = idx2).
Proof.
  assert (Hc : Epub.content (Main.make_chapter title1 content1 idx1) =
               Epub.content (Main.make_chapter title2 content2 idx2) <->
               content1 = content2).
  { split; [apply str_of_list_inj | by intros ->]. }
  assert (Hf : Epub.file_name (Main.make_chapter title1 content1 idx1) =
               Epub.file_name (Main.make_chapter title2 content2 idx2) <->
               idx1 = idx2).
  { split; [apply chap_file_inj | by intros ->]. }
  split; [|split; [exact Hc | exact Hf]].
  split.
  - intros H. split; [exact (f_equal Epub.title H)|].
    split; [apply Hc; exact (f_equal Epub.content H) | apply Hf; exact (f_equal Epub.file_name H)].
  - by intros (-> & -> & ->).
Qed.

(** ** The invariants of the loop *)

Lemma run_snoc (s : Splitter.state) (els : list Bs4.PageElement) (el : Bs4.PageElement) :
  Splitter.run s (els ++ [el]) = Splitter.step (Splitter.run s els) el.
Proof. by rewrite run_app. Qed.

Lemma since_last_heading_snoc (els : list Bs4.PageElement) (el : Bs4.PageElement) :
  since_last_heading (els ++ [el]) =
  if Main.is_heading el then [el] else since_last_heading els ++ [el].
Proof.
  induction els as [|x els IH].
  - simpl. by destruct (Main.is_heading el).
  - simpl. rewrite existsb_app, IH. simpl.
    destruct (Main.is_heading el); [by rewrite orb_true_r|].
    rewrite orb_false_r. by destruct (existsb Main.is_heading els).
Qed.

Lemma last_heading_text_snoc (els : list Bs4.PageElement) (el : Bs4.PageElement) :
  last_heading_text (els ++ [el]) =
  if Main.is_heading el then Bs4.get_text el else last_heading_text els.
Proof.
  unfold last_heading_text. rewrite filter_app.
  destruct (Main.is_heading el) eqn:Hh.
  - rewrite filter_cons_True by done. rewrite filter_nil, last_snoc. reflexivity.
  - rewrite filter_cons_False by congruence. rewrite filter_nil, app_nil_r. reflexivity.
Qed.

Lemma run_pending (els : list Bs4.PageElement) :
  Splitter.current_title (Splitter.run Splitter.start els) = last_heading_text els /\
  Splitter.current_buffer (Splitter.run Splitter.start els) =
    tagged_strs (since_last_heading els).
Proof.
  induction els as [|el els [IHt IHb]] using rev_ind; [done|].
  rewrite run_snoc, since_last_heading_snoc, last_heading_text_snoc.
  destruct (Main.is_heading el) eqn:Hh.
  - destruct (after_heading (Splitter.run Splitter.start els) el Hh) as [-> ->].
    split; [reflexivity|].
    rewrite tagged_strs_cons, (is_heading_has_name _ Hh). reflexivity.
  - rewrite tagged_strs_app, tagged_strs_cons.
    destruct (Main.has_name el) eqn:Hn.
    + rewrite step_content by done. simpl. by rewrite IHt, IHb.
    + rewrite step_untagged by done. rewrite IHt, IHb.
      unfold tagged_strs at 3. simpl. by rewrite !app_nil_r.
Qed.

Lemma add_items_items (l : list Epub.Item) (b : Epub.EpubBook) :
  Epub.items (fold_left Epub.add_item l b) = Epub.items b ++ l.
Proof.
  revert b; induction l as [|i l IH]; intros b; simpl.
  - by rewrite app_nil_r.
  - rewrite IH. simpl. by rewrite <- app_assoc.
Qed.

(** X13. At every turn of the loop, after any number of children: the
    counter is one more than the number of chapters collected; the
    pending title is the text of the last heading seen, or
    "Introduction" before the first; the buffer holds the serialized
    tagged children from the last heading on (all of them before the
    first heading); and the book holds, after the items it started
    with, exactly the chapters collected, in order. *)
Theorem loop_invariants (b : Epub.EpubBook) (els : list Bs4.PageElement) :
  Main.chapter_count (Main.main_loop (Main.initial b) els) =
    (1 + Z.of_nat (length (Main.chapters (Main.main_loop (Main.initial b) els))))%Z /\
  Main.current_title (Main.main_loop (Main.initial b) els) = last_heading_text els /\
  Main.current_chapter (Main.main_loop (Main.initial b) els) =
    tagged_strs (since_last_heading els) /\
  Epub.items (Main.book (Main.main_loop (Main.initial b) els)) =
    Epub.items b ++ map Epub.ItemHtml (Main.chapters (Main.main_loop (Main.initial b) els)).
Proof.
  rewrite initial_locals_of, main_loop_locals_of. simpl.
  destruct (run_pending els) as [Ht Hb].
  assert (Hn : numbered (Splitter.run Splitter.start els))
    by (apply numbered_run; split; reflexivity).
  destruct Hn as [_ Hn].
  split; [by rewrite length_map|]. split; [exact Ht|]. split; [exact Hb|].
  by rewrite add_items_items, map_map.
Qed.

(** [<p>intro</p><h1>A</h1>], cut before [<h1>A</h1>]. *)
Lemma split_before_heading_witness :
  Main.is_heading (elem "h1" "A") = true /\
  Main.chapters
    (Main.split Epub.new_book ([elem "p" "intro"] ++ elem "h1" "A" :: [elem "p" "x"])) =
    Main.chapters (Main.split Epub.new_book [elem "p" "intro"]) ++
    [Main.make_chapter "A" ["<h1>A</h1>"; "<p>x</p>"]%string 2].
Proof.
  split; [reflexivity|].
  exact (proj1 (split_before_heading Epub.new_book [elem "p" "intro"] [elem "p" "x"]
                  (elem "h1" "A") eq_refl)).
Defined.
